(** * ACES / esgpt_task_querying: the [query_task] entry point

    A shallow embedding of [src/esgpt_task_querying/main.py].  The module
    contains one function, [query_task], which

    - ingests the event stream (a dataset path or an in-memory table),
    - coerces and validates the table,
    - calls the configuration loader, the predicate generator, the tree
      builder and the recursive engine, which live in other modules,
    - filters the table by the trigger condition to obtain the initial
      anchors, and
    - assembles the wide result table and the optional [label] column.

    Tables are column oriented, as in polars: a frame is an ordered list of
    named series.  Python exceptions are values of [PyErr]; what is printed
    when [verbose] is set is a list of [LogMsg]. *)

From Stdlib Require Import ZArith List String Ascii Bool Arith Lia DecimalString.
Import ListNotations.
Open Scope string_scope.
Open Scope list_scope.

(** ** Exceptions and the result type *)

#[warnings="-register-all"]
Inductive PyErr : Type :=
| ValueError (msg : string)
| ValueErrorFrom (msg : string) (cause : PyErr)
    (* raise ValueError(msg) from cause *)
| ColumnNotFoundError (name : string)
| ShapeError
| DuplicateError (name : string)
| ComputeError
| SchemaError
| StructFieldNotFoundError (name : string)
| ConfigKeyError (key : string)
| Raised (cls : string) (msg : string)
    (* any exception class raised inside another module *)
| RaisedBase (cls : string) (msg : string).
    (* a class that derives from BaseException and not from Exception:
       KeyboardInterrupt, SystemExit, a panic of the table library *)

(** [isinstance(e, Exception)], what [except Exception] catches. *)
Definition is_exception (e : PyErr) : bool :=
  match e with
  | RaisedBase _ _ => false
  | _ => true
  end.

Inductive result (A : Type) : Type :=
| Ok (a : A)
| Err (e : PyErr).
Arguments Ok {A} a.
Arguments Err {A} e.

Definition rbind {A B} (r : result A) (f : A -> result B) : result B :=
  match r with
  | Ok a => f a
  | Err e => Err e
  end.

Declare Scope res_scope.
Delimit Scope res_scope with res.
Notation "x <- r ;; k" := (rbind r (fun x => k))
  (at level 61, r at next level, right associativity) : res_scope.

Fixpoint mapM {A B} (f : A -> result B) (l : list A) : result (list B) :=
  match l with
  | [] => Ok []
  | a :: l' =>
      (b <- f a ;;
       bs <- mapM f l' ;;
       Ok (b :: bs))%res
  end.

(** ** The polars fragment used by [query_task] *)

Module pl.

Inductive Value : Type :=
| VNull
| VInt (z : Z)
| VStr (s : string)
| VDatetime (us : Z)
| VStruct (fields : list (string * option Z)).

Inductive DType : Type :=
| Int64
| Utf8
| Datetime
| Struct (fields : list string).

Record Series : Type := mkSeries { dtype : DType; values : list Value }.

(** A frame: named columns, in order. *)
Definition DataFrame : Type := list (string * Series).

Definition columns (df : DataFrame) : list string := map fst df.

(** [df.shape[0]] *)
Definition height (df : DataFrame) : nat :=
  match df with
  | [] => 0
  | (_, s) :: _ => List.length (values s)
  end.

Fixpoint assoc {A} (k : string) (l : list (string * A)) : option A :=
  match l with
  | [] => None
  | (k', a) :: l' => if String.eqb k k' then Some a else assoc k l'
  end.

Definition mem (k : string) (l : list string) : bool :=
  existsb (String.eqb k) l.

(** [df[name]] *)
Definition get_column (df : DataFrame) (name : string) : result Series :=
  match assoc name df with
  | Some s => Ok s
  | None => Err (ColumnNotFoundError name)
  end.

(** A boolean series, as produced by a comparison: [None] is null. *)
Definition Mask : Type := list (option bool).

(** The literal [z] as text. *)
Definition decimal (z : Z) : string := NilZero.string_of_int (Z.to_int z).

(** [series == z]: the literal is cast to the dtype of the column, so a text
    column is compared with the text of [z]; a null compares to null. *)
Definition eq_lit (s : Series) (z : Z) : Mask :=
  map (fun v => match v with
                | VNull => None
                | VInt x => Some (Z.eqb x z)
                | VStr t => Some (String.eqb t (decimal z))
                | VDatetime us => Some (Z.eqb us z)
                | VStruct _ => Some false
                end) (values s).

(** [~mask] *)
Definition invert (m : Mask) : Mask := map (option_map negb) m.

Definition is_true (b : option bool) : bool :=
  match b with Some true => true | _ => false end.

Fixpoint keep {A} (m : Mask) (l : list A) : list A :=
  match m, l with
  | b :: m', a :: l' => if is_true b then a :: keep m' l' else keep m' l'
  | _, _ => []
  end.

(** Filtering one series by a mask: a mask of length one is broadcast, any
    other length must be the length of the series. *)
Definition filter_series (m : Mask) (s : Series) : result Series :=
  match m with
  | [b] => Ok (if is_true b then s else mkSeries (dtype s) [])
  | _ =>
      if Nat.eqb (List.length m) (List.length (values s))
      then Ok (mkSeries (dtype s) (keep m (values s)))
      else Err ShapeError
  end.

(** [df.filter(mask)] with a boolean series as predicate. *)
Definition filter (df : DataFrame) (m : Mask) : result DataFrame :=
  mapM (fun c => (s <- filter_series m (snd c) ;; Ok (fst c, s))%res) df.

(** Expressions, restricted to the constructors [main.py] builds. *)
Inductive Expr : Type :=
| col (name : string)
| lit (z : Z)
| alias (e : Expr) (name : string)
| str_strptime (e : Expr) (format : string)
| cast_datetime (e : Expr)
| struct_field (e : Expr) (name : string).

Section Eval.

(** The datetime parser behind [str.strptime]: format, text, microseconds. *)
Variable strptime : string -> string -> option Z.

Definition parse_value (format : string) (v : Value) : result Value :=
  match v with
  | VNull => Ok VNull
  | VStr s =>
      match strptime format s with
      | Some us => Ok (VDatetime us)
      | None => Err ComputeError
      end
  | _ => Err SchemaError
  end.

Definition field_value (name : string) (v : Value) : Value :=
  match v with
  | VStruct fs =>
      match assoc name fs with
      | Some (Some z) => VInt z
      | _ => VNull
      end
  | _ => VNull
  end.

(** Evaluation of an expression in the context of a frame: the output name
    and the series. *)
Fixpoint eval (df : DataFrame) (e : Expr) : result (string * Series) :=
  match e with
  | col name => (s <- get_column df name ;; Ok (name, s))%res
  | lit z => Ok ("literal", mkSeries Int64 (repeat (VInt z) (height df)))
  | alias e' name => (r <- eval df e' ;; Ok (name, snd r))%res
  | str_strptime e' format =>
      (r <- eval df e' ;;
       match dtype (snd r) with
       | Utf8 =>
           (vs <- mapM (parse_value format) (values (snd r)) ;;
            Ok (fst r, mkSeries Datetime vs))
       | _ => Err SchemaError
       end)%res
  | cast_datetime e' =>
      (r <- eval df e' ;;
       match dtype (snd r) with
       | Datetime => Ok r
       | _ => Err SchemaError
       end)%res
  | struct_field e' name =>
      (r <- eval df e' ;;
       match dtype (snd r) with
       | Struct fs =>
           if mem name fs
           then Ok (name, mkSeries Int64 (map (field_value name) (values (snd r))))
           else Err (StructFieldNotFoundError name)
       | _ => Err SchemaError
       end)%res
  end.

Fixpoint first_duplicate (l : list string) : option string :=
  match l with
  | [] => None
  | x :: l' => if mem x l' then Some x else first_duplicate l'
  end.

Definition check_unique (cs : list (string * Series)) : result unit :=
  match first_duplicate (map fst cs) with
  | Some x => Err (DuplicateError x)
  | None => Ok tt
  end.

(** [df.select] over a list of expressions *)
Definition select (df : DataFrame) (es : list Expr) : result DataFrame :=
  (cs <- mapM (eval df) es ;;
   _ <- check_unique cs ;;
   Ok cs)%res.

Fixpoint replace_column (c : string * Series) (df : DataFrame) : DataFrame :=
  match df with
  | [] => []
  | d :: df' =>
      if String.eqb (fst c) (fst d) then c :: df' else d :: replace_column c df'
  end.

(** A new column replaces the column of the same name, or is appended. *)
Definition put_column (df : DataFrame) (c : string * Series) : DataFrame :=
  if mem (fst c) (columns df) then replace_column c df else df ++ [c].

(** [df.with_columns] over a list of expressions *)
Definition with_columns (df : DataFrame) (es : list Expr) : result DataFrame :=
  (cs <- mapM (eval df) es ;;
   _ <- check_unique cs ;;
   Ok (fold_left put_column cs df))%res.

End Eval.

(** [df.rename({old: new})] *)
Definition rename (df : DataFrame) (old new : string) : result DataFrame :=
  if mem old (columns df)
  then
    let df' := map (fun c => if String.eqb (fst c) old then (new, snd c) else c) df in
    match first_duplicate (columns df') with
    | Some x => Err (DuplicateError x)
    | None => Ok df'
    end
  else Err (ColumnNotFoundError old).

(** [df.drop([name])] *)
Definition drop (df : DataFrame) (name : string) : result DataFrame :=
  if mem name (columns df)
  then Ok (List.filter (fun c => negb (String.eqb (fst c) name)) df)
  else Err (ColumnNotFoundError name).

(** *** Row-wise operations of the dataset path *)

Definition is_null (v : Value) : bool :=
  match v with VNull => true | _ => false end.

Definition row_at (df : DataFrame) (i : nat) : list Value :=
  map (fun c => nth i (values (snd c)) VNull) df.

(** [~pl.all_horizontal(pl.all().is_null())] *)
Definition not_all_null (df : DataFrame) : Mask :=
  map (fun i => Some (negb (forallb is_null (row_at df i)))) (seq 0 (height df)).

Definition field_eqb (a b : string * option Z) : bool :=
  String.eqb (fst a) (fst b) &&
  match snd a, snd b with
  | Some x, Some y => Z.eqb x y
  | None, None => true
  | _, _ => false
  end.

Fixpoint fields_eqb (a b : list (string * option Z)) : bool :=
  match a, b with
  | [], [] => true
  | x :: a', y :: b' => field_eqb x y && fields_eqb a' b'
  | _, _ => false
  end.

Definition value_eqb (a b : Value) : bool :=
  match a, b with
  | VNull, VNull => true
  | VInt x, VInt y => Z.eqb x y
  | VStr x, VStr y => String.eqb x y
  | VDatetime x, VDatetime y => Z.eqb x y
  | VStruct x, VStruct y => fields_eqb x y
  | _, _ => false
  end.

(** [series.unique().shape[0]] *)
Fixpoint unique (l : list Value) : list Value :=
  match l with
  | [] => []
  | v :: l' => if existsb (value_eqb v) l' then unique l' else v :: unique l'
  end.

Definition n_unique (s : Series) : nat := List.length (unique (values s)).

(** Gathering rows by index; [None] yields a null. *)
Definition take (idx : list (option nat)) (s : Series) : Series :=
  mkSeries (dtype s)
    (map (fun o => match o with
                   | Some i => nth i (values s) VNull
                   | None => VNull
                   end) idx).

Definition key_matches (v : Value) (keys : list Value) : list nat :=
  List.filter (fun j => negb (is_null v) && value_eqb v (nth j keys VNull))
    (seq 0 (List.length keys)).

(** [left.join(right, on=on, how="left")]: the rows of [left] in order, each
    paired with its matches in [right] (or with nulls); a column of [right]
    whose name is taken gets the suffix [_right]. *)
Definition join_left (left right : DataFrame) (on : string) : result DataFrame :=
  (lk <- get_column left on ;;
   rk <- get_column right on ;;
   let pairs :=
     flat_map (fun i =>
       match key_matches (nth i (values lk) VNull) (values rk) with
       | [] => [(i, None)]
       | js => map (fun j => (i, Some j)) js
       end) (seq 0 (height left)) in
   let lcols := map (fun c => (fst c, take (map (fun p => Some (fst p)) pairs) (snd c))) left in
   let rcols :=
     map (fun c => (if mem (fst c) (columns left) then (fst c ++ "_right")%string else fst c,
                    take (map snd pairs) (snd c)))
         (List.filter (fun c => negb (String.eqb (fst c) on)) right) in
   _ <- check_unique (lcols ++ rcols) ;;
   Ok (lcols ++ rcols))%res.

(** Order of the sort keys, nulls first. *)
Definition value_compare (a b : Value) : comparison :=
  match a, b with
  | VNull, VNull => Eq
  | VNull, _ => Lt
  | _, VNull => Gt
  | VInt x, VInt y => Z.compare x y
  | VStr x, VStr y => String.compare x y
  | VDatetime x, VDatetime y => Z.compare x y
  | _, _ => Eq
  end.

Fixpoint key_compare (a b : list Value) : comparison :=
  match a, b with
  | x :: a', y :: b' =>
      match value_compare x y with
      | Eq => key_compare a' b'
      | c => c
      end
  | _, _ => Eq
  end.

Section Sort.

Variable key : nat -> list Value.

Fixpoint insert_sorted (i : nat) (l : list nat) : list nat :=
  match l with
  | [] => [i]
  | j :: l' =>
      match key_compare (key i) (key j) with
      | Gt => j :: insert_sorted i l'
      | _ => i :: l
      end
  end.

Definition sort_indices (l : list nat) : list nat :=
  fold_right insert_sorted [] l.

End Sort.

(** [df.sort(by=names)]; rows with equal keys keep their order. *)
Definition sort (df : DataFrame) (by_ : list string) : result DataFrame :=
  (ks <- mapM (get_column df) by_ ;;
   let key := fun i => map (fun k => nth i (values k) VNull) ks in
   let idx := sort_indices key (seq 0 (height df)) in
   Ok (map (fun c => (fst c, take (map Some idx) (snd c))) df))%res.

End pl.

(** ** Configuration and window tree, as far as [query_task] reads them *)

Record Include : Type := mkInclude { predicate : string }.

(** One entry of [cfg.windows]; [extra] holds the keys [query_task] does not
    read (boundaries, excludes, ...). *)
Record Window : Type := mkWindow {
  start : option string;
  includes : list Include;
  label : option string;
  extra : list (string * string)
}.

Record Config : Type := mkConfig { windows : list (string * Window) }.

(** [cfg.windows.trigger] *)
Definition trigger (cfg : Config) : result Window :=
  match pl.assoc "trigger" (windows cfg) with
  | Some w => Ok w
  | None => Err (ConfigKeyError "trigger")
  end.

(** A bigtree node. *)
#[warnings="-register-all"]
Inductive Node : Type := mkNode (name : string) (children : list Node).

Definition node_name (n : Node) : string :=
  match n with mkNode nm _ => nm end.

Fixpoint preorder_iter (n : Node) : list Node :=
  match n with
  | mkNode _ cs => n :: flat_map preorder_iter cs
  end.

(** Python truthiness of the values [query_task] tests. *)
Definition truthy_str (s : string) : bool := negb (String.eqb s "").

Definition truthy_opt (o : option string) : bool :=
  match o with Some s => truthy_str s | None => false end.

Definition truthy_list {A} (l : list A) : bool :=
  match l with [] => false | _ => true end.

(** [f"{x}"] for an optional string. *)
Definition fmt (o : option string) : string :=
  match o with Some s => s | None => "None" end.

(** ** The other modules *)

Record Dataset : Type := mkDataset {
  events_df : pl.DataFrame;
  dynamic_measurements_df : pl.DataFrame
}.

(** What [main.py] imports: the dataset loader, the three functions of
    [.config], [.event_predicates] and [.query], and the datetime parser of
    the table library. *)
Record Env : Type := mkEnv {
  Dataset_load : string -> result Dataset;
  load_config : string -> result Config;
  generate_predicate_columns : Config -> pl.DataFrame -> bool -> result pl.DataFrame;
  build_tree_from_config : Config -> result Node;
  query_subtree : Node -> pl.DataFrame -> pl.DataFrame -> Z -> bool -> result pl.DataFrame;
  strptime : string -> string -> option Z
}.

Inductive Data : Type :=
| Path (p : string)
| Frame (df : pl.DataFrame).

(** ** Output and exceptions of [query_task] *)

(** What [query_task] prints when [verbose] is set. *)
Inductive LogMsg : Type :=
| LoadingConfig
| GeneratingPredicates
| BuildingTree
| PrintedTree (tree : Node)
| ExcludedByCondition (subjects rows : nat) (condition : Include)
| ExcludedByEvent (subjects rows : nat) (event : option string)
| Querying
| Done.

(** A run of Python code: what was printed, and the value or the exception. *)
Definition M (A : Type) : Type := (list LogMsg * result A)%type.

Definition ret {A} (a : A) : M A := ([], Ok a).

Definition bind {A B} (m : M A) (f : A -> M B) : M B :=
  match snd m with
  | Ok a => (fst m ++ fst (f a), snd (f a))
  | Err e => (fst m, Err e)
  end.

Definition lift {A} (r : result A) : M A := ([], r).

Definition print (msg : LogMsg) : M unit := ([msg], Ok tt).

Definition when (b : bool) (m : M unit) : M unit := if b then m else ret tt.

Declare Scope py_scope.
Delimit Scope py_scope with py.
Notation "x <- m ;; k" := (bind m (fun x => k))
  (at level 61, m at next level, right associativity) : py_scope.
Notation "m ;;; k" := (bind m (fun _ => k))
  (at level 61, right associativity) : py_scope.

(** The messages of the exceptions raised by [query_task] itself. *)
Definition msg_empty : string := "Empty ESD!".
Definition msg_no_timestamp : string := "ESD does not have timestamp column!".
Definition msg_no_subject_id : string := "ESD does not have subject_id column!".
Definition msg_predicates : string :=
  "Error generating predicate columns from configuration file! Check to make sure the format of the configuration file is valid.".

(** The error kinds of the design, and the exceptions that stand for them:
    the three input checks are input errors, the wrapped failure of the
    predicate generator is a configuration error, and another module may
    raise an exception class of the kind's own name. *)
Inductive ErrorKind : Type := InputError | ConfigurationError | EmptyResultError.

Definition kind_of (e : PyErr) : option ErrorKind :=
  match e with
  | ValueError msg =>
      if String.eqb msg msg_empty || String.eqb msg msg_no_timestamp
         || String.eqb msg msg_no_subject_id
      then Some InputError else None
  | ValueErrorFrom msg _ =>
      if String.eqb msg msg_predicates then Some ConfigurationError else None
  | Raised cls _ =>
      if String.eqb cls "InputError" then Some InputError
      else if String.eqb cls "ConfigurationError" then Some ConfigurationError
      else if String.eqb cls "EmptyResultError" then Some EmptyResultError
      else None
  | _ => None
  end.

(** ** [query_task] *)

Module main.

Import pl.

Definition timestamp_format : string := "%m/%d/%Y %H:%M".

(** Lines 29-45: the event stream, from a dataset directory or as given. *)
Definition load_data (env : Env) (data : Data) : result DataFrame :=
  match data with
  | Path p =>
      (ESD <- Dataset_load env p ;;
       events <- filter (events_df ESD) (not_all_null (events_df ESD)) ;;
       measurements <- filter (dynamic_measurements_df ESD)
                         (not_all_null (dynamic_measurements_df ESD)) ;;
       joined <- join_left events measurements "event_id" ;;
       dropped <- drop joined "event_id" ;;
       sort dropped ["subject_id"; "timestamp"; "event_type"])%res
  | Frame df => Ok df
  end.

Definition is_datetime (d : DType) : bool :=
  match d with Datetime => true | _ => false end.

(** Lines 47-52: a timestamp column that is not a datetime is parsed. *)
Definition parse_timestamp (env : Env) (ESD_data : DataFrame) : result DataFrame :=
  (ts <- get_column ESD_data "timestamp" ;;
   if is_datetime (dtype ts) then Ok ESD_data
   else with_columns (strptime env) ESD_data
          [cast_datetime (str_strptime (col "timestamp") timestamp_format)])%res.

(** Lines 54-59. *)
Definition check_data (ESD_data : DataFrame) : result unit :=
  if Nat.eqb (height ESD_data) 0 then Err (ValueError msg_empty)
  else if negb (mem "timestamp" (columns ESD_data)) then Err (ValueError msg_no_timestamp)
  else if negb (mem "subject_id" (columns ESD_data)) then Err (ValueError msg_no_subject_id)
  else Ok tt.

(** Lines 67-73: the only call made under [try]; [except Exception] lets
    through what is no [Exception]. *)
Definition try_generate (env : Env) (cfg : Config) (ESD_data : DataFrame)
    (verbose : bool) : result DataFrame :=
  match generate_predicate_columns env cfg ESD_data verbose with
  | Ok df => Ok df
  | Err e => if is_exception e then Err (ValueErrorFrom msg_predicates e) else Err e
  end.

(** Line 82. *)
Definition predicate_cols (ESD_data : DataFrame) : list string :=
  List.filter (String.prefix "is_") (columns ESD_data).

(** Lines 84-91: one boolean series per trigger condition, each computed on
    the whole of [ESD_data]. *)
Definition valid_trigger_exprs (trig : Window) (ESD_data : DataFrame)
    : result (list Mask) :=
  if truthy_list (includes trig)
  then mapM (fun x =>
               (s <- get_column ESD_data ("is_" ++ predicate x)%string ;;
                Ok (eq_lit s 1))%res) (includes trig)
  else (s <- get_column ESD_data ("is_" ++ fmt (start trig))%string ;;
        Ok [eq_lit s 1])%res.

(** Lines 105-113. *)
Definition report (trig : Window) (i : nat) (dropped : DataFrame) : M unit :=
  (ids <- lift (get_column dropped "subject_id") ;;
   if truthy_list (includes trig)
   then print (ExcludedByCondition (n_unique ids) (height dropped)
                 (nth i (includes trig) (mkInclude "")))
   else print (ExcludedByEvent (n_unique ids) (height dropped) (start trig)))%py.

(** Lines 96-116: the loop over the conditions; [anchor] is the table
    filtered so far and [shape] its last recorded height. *)
Fixpoint trigger_loop (verbose : bool) (trig : Window) (i : nat)
    (conditions : list Mask) (anchor : DataFrame) (shape : nat) : M DataFrame :=
  match conditions with
  | [] => ret anchor
  | condition :: rest =>
      (dropped <- lift (filter anchor (invert condition)) ;;
       anchor' <- lift (filter anchor condition) ;;
       if Nat.ltb (height anchor') shape
       then when verbose (report trig i dropped) ;;;
            trigger_loop verbose trig (S i) rest anchor' (height anchor')
       else trigger_loop verbose trig (S i) rest anchor' shape)%py
  end.

(** Lines 118-124: the key columns and the predicate columns, the latter
    overwritten with the literal 0. *)
Definition zero_predicates (env : Env) (anchor : DataFrame) (cols : list string)
    : result DataFrame :=
  (sel <- select (strptime env) anchor
            (col "subject_id" :: col "timestamp" :: map col cols) ;;
   with_columns (strptime env) sel
     (col "subject_id" :: col "timestamp" :: map (fun c => alias (lit 0) c) cols))%res.

(** Lines 82-124: the initial anchors. *)
Definition initial_anchors (env : Env) (verbose : bool) (cfg : Config)
    (ESD_data : DataFrame) : M DataFrame :=
  (trig <- lift (trigger cfg) ;;
   conditions <- lift (valid_trigger_exprs trig ESD_data) ;;
   anchor <- trigger_loop verbose trig 0 conditions ESD_data (height ESD_data) ;;
   lift (zero_predicates env anchor (predicate_cols ESD_data)))%py.

(** Lines 140-147. *)
Definition assemble (env : Env) (tree : Node) (res : DataFrame) : result DataFrame :=
  let output_order := preorder_iter tree in
  (sel <- select (strptime env) res
            (col "subject_id" :: col "timestamp"
             :: map (fun c => col (node_name c ++ "/timestamp")%string) (tl output_order)
             ++ map (fun c => col (node_name c ++ "/window_summary")%string) (tl output_order)) ;;
   rename sel "timestamp" (node_name tree ++ "/timestamp")%string)%res.

(** Lines 149-154: the first window with a truthy [label]. *)
Fixpoint label_window (ws : list (string * Window)) : option (string * string) :=
  match ws with
  | [] => None
  | (window, w) :: ws' =>
      match label w with
      | Some l => if truthy_str l then Some (window, l) else label_window ws'
      | None => label_window ws'
      end
  end.

(** Lines 156-162. *)
Definition add_label (env : Env) (cfg : Config) (res : DataFrame) : result DataFrame :=
  match label_window (windows cfg) with
  | Some (window, l) =>
      if truthy_str window
      then with_columns (strptime env) res
             [alias (struct_field (col (window ++ "/window_summary")%string)
                                  ("is_" ++ l)%string) "label"]
      else Ok res
  | None => Ok res
  end.

Definition query_task (env : Env) (cfg_path : string) (data : Data)
    (verbose : bool) : M DataFrame :=
  (ESD_data <- lift (load_data env data) ;;
   ESD_data <- lift (parse_timestamp env ESD_data) ;;
   lift (check_data ESD_data) ;;;
   when verbose (print LoadingConfig) ;;;
   cfg <- lift (load_config env cfg_path) ;;
   when verbose (print GeneratingPredicates) ;;;
   ESD_data <- lift (try_generate env cfg ESD_data verbose) ;;
   when verbose (print BuildingTree) ;;;
   tree <- lift (build_tree_from_config env cfg) ;;
   when verbose (print (PrintedTree tree)) ;;;
   anchors <- initial_anchors env verbose cfg ESD_data ;;
   when verbose (print Querying) ;;;
   res <- lift (query_subtree env tree anchors ESD_data 0%Z verbose) ;;
   when verbose (print Done) ;;;
   res <- lift (assemble env tree res) ;;
   lift (add_label env cfg res))%py.

End main.

Definition outcome {A} (m : M A) : result A := snd m.
Definition printed {A} (m : M A) : list LogMsg := fst m.

Import pl main.

(** ** The engine's error contract *)

(** Modelled from the spec: [query_subtree] of module [.query] is not part
    of [main.py].  Section 4.1 gives its error contract: the engine "fails
    with an EmptyResultError kind if the root trigger filter drops every
    subject (rather than silently returning an empty table)".  [engine]
    stands for the evaluation of a non-empty anchor set. *)
Definition query_subtree_spec
    (engine : Node -> DataFrame -> DataFrame -> Z -> bool -> result DataFrame)
    (subtree : Node) (anchors predicates_df : DataFrame) (anchor_offset : Z)
    (verbose : bool) : result DataFrame :=
  if Nat.eqb (height anchors) 0
  then Err (Raised "EmptyResultError" "the trigger filter dropped every subject")
  else engine subtree anchors predicates_df anchor_offset verbose.

Definition with_query_subtree (env : Env)
    (q : Node -> DataFrame -> DataFrame -> Z -> bool -> result DataFrame) : Env :=
  mkEnv (Dataset_load env) (load_config env) (generate_predicate_columns env)
        (build_tree_from_config env) q (strptime env).

(** ** Notions used in the statements *)

(** An exception identifies a column when it carries its name. *)
Definition mentions (sub s : string) : bool :=
  match String.index 0 sub s with Some _ => true | None => false end.

Definition identifies (e : PyErr) (column : string) : bool :=
  match e with
  | ValueError msg => mentions column msg
  | ValueErrorFrom msg _ => mentions column msg
  | ColumnNotFoundError name => String.eqb name column
  | _ => false
  end.

Definition cell (df : DataFrame) (name : string) (i : nat) : Value :=
  match assoc name df with
  | Some s => nth i (values s) VNull
  | None => VNull
  end.

Definition dtype_of (df : DataFrame) (name : string) : DType :=
  match assoc name df with Some s => dtype s | None => Int64 end.

Definition is_one (v : Value) : bool :=
  match v with VInt 1 => true | _ => false end.

(** The trigger condition in the words of the design: with an [includes]
    list every included predicate column is 1 on the row, else the column
    of the trigger event is. *)
Definition qualifies (trig : Window) (ESD_data : DataFrame) (i : nat) : bool :=
  if truthy_list (includes trig)
  then forallb (fun x => is_one (cell ESD_data ("is_" ++ predicate x)%string i))
               (includes trig)
  else is_one (cell ESD_data ("is_" ++ fmt (start trig))%string i).

Definition qualifying_rows (trig : Window) (ESD_data : DataFrame) : list nat :=
  List.filter (qualifies trig ESD_data) (seq 0 (height ESD_data)).

(** The anchors the design asks for: one row per qualifying row, with its
    subject and timestamp, and every predicate column zero. *)
Definition anchors_spec (trig : Window) (ESD_data : DataFrame) : DataFrame :=
  let rows := qualifying_rows trig ESD_data in
  ("subject_id", mkSeries (dtype_of ESD_data "subject_id")
                   (map (cell ESD_data "subject_id") rows))
  :: ("timestamp", mkSeries (dtype_of ESD_data "timestamp")
                     (map (cell ESD_data "timestamp") rows))
  :: map (fun c => (c, mkSeries Int64 (repeat (VInt 0) (List.length rows))))
         (predicate_cols ESD_data).

(** The rows [rows] of a frame, in that order. *)
Definition gather (rows : list nat) (df : DataFrame) : DataFrame :=
  map (fun c => (fst c, mkSeries (dtype (snd c))
                          (map (fun i => nth i (values (snd c)) VNull) rows))) df.

(** All columns have the height of the frame, and no name occurs twice. *)
Definition well_formed (df : DataFrame) : Prop :=
  NoDup (columns df) /\
  forall c, In c df -> List.length (values (snd c)) = height df.

(** The [label] column, when lines 149-162 add one. *)
Definition label_column (cfg : Config) : list string :=
  match label_window (windows cfg) with
  | Some (window, _) => if truthy_str window then ["label"] else []
  | None => []
  end.

(** The windows that carry a truthy [label]. *)
Definition labelled (cfg : Config) : list string :=
  map fst (List.filter (fun w => truthy_opt (label (snd w))) (windows cfg)).

(** ** A small example, used to run the model *)

Module Sample.

Definition hour : Z := 3600000000.

Definition ints (l : list Z) : Series := mkSeries Int64 (map VInt l).
Definition times (l : list Z) : Series := mkSeries Datetime (map VDatetime l).

Definition summary (admission death : Z) : Value :=
  VStruct [("is_admission", Some admission); ("is_death", Some death)].

Definition summaries (l : list Value) : Series :=
  mkSeries (Struct ["is_admission"; "is_death"]) l.

(** Subject 1 is admitted at 0h and dies at 5h; subject 2 is admitted at 0h. *)
Definition events : DataFrame :=
  [ ("subject_id", ints [1; 1; 2]);
    ("timestamp", times [0; 5 * hour; 0]);
    ("is_admission", ints [1; 0; 1]);
    ("is_death", ints [0; 1; 0]) ]%Z.

(** The same events without any admission. *)
Definition events_no_trigger : DataFrame :=
  [ ("subject_id", ints [1; 1; 2]);
    ("timestamp", times [0; 5 * hour; 0]);
    ("is_admission", ints [0; 0; 0]);
    ("is_death", ints [0; 1; 0]) ]%Z.

Definition window (st : option string) (inc : list Include) (lab : option string)
    : Window :=
  mkWindow st inc lab [].

Definition cfg : Config :=
  mkConfig [ ("trigger", window (Some "admission") [] None);
             ("gap", window None [] None);
             ("target", window None [] (Some "death")) ].

Definition cfg_two_labels : Config :=
  mkConfig [ ("trigger", window (Some "admission") [] None);
             ("gap", window None [] (Some "admission"));
             ("target", window None [] (Some "death")) ].

Definition tree : Node := mkNode "trigger" [mkNode "gap" [mkNode "target" []]].

(** What the engine hands back for [events]: one row per admission. *)
Definition engine_result : DataFrame :=
  [ ("subject_id", ints [1; 2]);
    ("timestamp", times [0; 0]);
    ("gap/timestamp", times [2 * hour; 2 * hour]);
    ("gap/window_summary", summaries [summary 1 0; summary 1 0]);
    ("target/timestamp", times [10 * hour; 10 * hour]);
    ("target/window_summary", summaries [summary 0 1; summary 0 0]) ]%Z.

Definition engine (subtree : Node) (anchors predicates_df : DataFrame)
    (anchor_offset : Z) (verbose : bool) : result DataFrame :=
  Ok engine_result.

Definition no_dataset (p : string) : result Dataset :=
  Err (Raised "FileNotFoundError" p).

Definition no_parser (format s : string) : option Z := None.

(** Stand-ins for the other modules: a loader that returns [c], a predicate
    generator that returns the table it is given, the tree above, and the
    engine above. *)
Definition env_of (c : result Config) : Env :=
  mkEnv no_dataset (fun _ => c) (fun _ df _ => Ok df) (fun _ => Ok tree)
        engine no_parser.

Definition env : Env := env_of (Ok cfg).

Definition env_two_labels : Env := env_of (Ok cfg_two_labels).

Definition env_bad_config : Env :=
  env_of (Err (Raised "FileNotFoundError" "task.yaml")).

Definition env_bad_predicates : Env :=
  mkEnv no_dataset (fun _ => Ok cfg)
        (fun _ _ _ => Err (Raised "KeyError" "is_admission"))
        (fun _ => Ok tree) engine no_parser.

(** The assembled table for [events] under [cfg]. *)
Definition expected : DataFrame :=
  [ ("subject_id", ints [1; 2]);
    ("trigger/timestamp", times [0; 0]);
    ("gap/timestamp", times [2 * hour; 2 * hour]);
    ("target/timestamp", times [10 * hour; 10 * hour]);
    ("gap/window_summary", summaries [summary 1 0; summary 1 0]);
    ("target/window_summary", summaries [summary 0 1; summary 0 0]);
    ("label", ints [1; 0]) ]%Z.

(** Under [cfg_two_labels] the label is read from [gap], the first window
    that carries one. *)
Definition expected_two_labels : DataFrame :=
  [ ("subject_id", ints [1; 2]);
    ("trigger/timestamp", times [0; 0]);
    ("gap/timestamp", times [2 * hour; 2 * hour]);
    ("target/timestamp", times [10 * hour; 10 * hour]);
    ("gap/window_summary", summaries [summary 1 0; summary 1 0]);
    ("target/window_summary", summaries [summary 0 1; summary 0 0]);
    ("label", ints [1; 1]) ]%Z.

(** A trigger with two conditions, and two events of one subject of which
    only the second meets both. *)
Definition cfg_includes : Config :=
  mkConfig [ ("trigger",
              window None [mkInclude "admission"; mkInclude "icu"] None) ].

Definition events_includes : DataFrame :=
  [ ("subject_id", ints [1; 1]);
    ("timestamp", times [0; hour]);
    ("is_admission", ints [0; 1]);
    ("is_icu", ints [1; 1]) ]%Z.

(** Tables without rows. *)
Definition no_rows_no_timestamp : DataFrame :=
  [ ("subject_id", ints []) ].

Definition no_rows_no_subject_id : DataFrame :=
  [ ("timestamp", times []); ("is_admission", ints []) ].

Definition rows_no_subject_id : DataFrame :=
  [ ("timestamp", times [0; hour]); ("is_admission", ints [1; 0]) ]%Z.

(** Rows out of order, one of them all null, and text timestamps. *)
Definition unsorted : DataFrame :=
  [ ("subject_id", mkSeries Int64 [VInt 2; VNull; VInt 1]);
    ("timestamp", mkSeries Datetime [VDatetime hour; VNull; VDatetime 0]);
    ("is_admission", mkSeries Int64 [VInt 0; VNull; VInt 1]) ]%Z.

(** A stored dataset: four events, one of them an all-null row, out of
    order, and the measurements of two of them. *)
Definition dataset : Dataset :=
  mkDataset
    [ ("event_id", mkSeries Int64 [VInt 10; VInt 11; VNull; VInt 12]);
      ("subject_id", mkSeries Int64 [VInt 2; VInt 1; VNull; VInt 1]);
      ("timestamp", mkSeries Datetime
                      [VDatetime hour; VDatetime (5 * hour); VNull; VDatetime 0]);
      ("event_type", mkSeries Utf8 [VStr "LAB"; VStr "DEATH"; VNull; VStr "ADMISSION"]) ]
    [ ("event_id", ints [10; 10; 12]);
      ("lab", mkSeries Utf8 [VStr "K"; VStr "Na"; VNull]) ]%Z.

Definition env_dataset : Env :=
  mkEnv (fun _ => Ok dataset) (fun _ => Ok cfg) (fun _ df _ => Ok df)
        (fun _ => Ok tree) engine no_parser.

(** The events of [dataset] as [query_task] sees them. *)
Definition dataset_events : DataFrame :=
  [ ("subject_id", ints [1; 1; 2; 2]);
    ("timestamp", times [0; 5 * hour; hour; hour]);
    ("event_type", mkSeries Utf8 [VStr "ADMISSION"; VStr "DEATH"; VStr "LAB"; VStr "LAB"]);
    ("lab", mkSeries Utf8 [VNull; VNull; VStr "K"; VStr "Na"]) ]%Z.

End Sample.

(** ** Further notions and inputs *)

(** An integer column: its dtype is Int64 and its values are integers or
    nulls. *)
Definition integer_value (v : Value) : bool :=
  match v with VNull | VInt _ => true | _ => false end.

Definition integer_series (s : Series) : bool :=
  match dtype s with
  | Int64 => forallb integer_value (values s)
  | _ => false
  end.

(** Every predicate column of the table is an integer column. *)
Definition integer_predicates (df : DataFrame) : Prop :=
  forall name s,
    String.prefix "is_" name = true -> assoc name df = Some s ->
    integer_series s = true.

(** A row is reported as dropped by a condition when its predicate value is
    neither null nor 1. *)
Definition rejects (v : Value) : bool := negb (is_null v) && negb (is_one v).

Definition rejected_rows (name : string) (ESD_data : DataFrame) : list nat :=
  List.filter (fun i => rejects (cell ESD_data name i)) (seq 0 (height ESD_data)).

Definition node_children (n : Node) : list Node :=
  match n with mkNode _ cs => cs end.

(** [InTree c t]: [c] is a node of the tree [t], the root or a node of
    the subtree of one of its children. *)
Inductive InTree (c : Node) : Node -> Prop :=
| InTree_root : InTree c c
| InTree_child (name : string) (children : list Node) (child : Node) :
    In child children -> InTree c child -> InTree c (mkNode name children).

(** The nodes of a tree other than its root. *)
Definition below_root (c tree : Node) : Prop :=
  exists child, In child (node_children tree) /\ InTree c child.

(** Induction on trees, with the hypothesis for every child. *)
Fixpoint Node_induction (P : Node -> Prop)
    (step : forall name cs, Forall P cs -> P (mkNode name cs)) (n : Node) : P n :=
  match n with
  | mkNode name cs =>
      step name cs
        ((fix all (l : list Node) : Forall P l :=
            match l with
            | [] => Forall_nil P
            | c :: l' => Forall_cons c (Node_induction P step c) (all l')
            end) cs)
  end.

Module Edge.

(** The label is put on the trigger window, the root of the tree. *)
Definition cfg_label_on_trigger : Config :=
  mkConfig [ ("trigger", Sample.window (Some "admission") [] (Some "death"));
             ("gap", Sample.window None [] None);
             ("target", Sample.window None [] None) ].


(** A tree in which two windows have the same name. *)
Definition tree_repeated : Node :=
  mkNode "trigger" [mkNode "gap" []; mkNode "gap" []].

Definition env_repeated : Env :=
  mkEnv Sample.no_dataset (fun _ => Ok Sample.cfg) (fun _ df _ => Ok df)
        (fun _ => Ok tree_repeated) Sample.engine Sample.no_parser.

Definition env_no_tree : Env :=
  mkEnv Sample.no_dataset (fun _ => Ok Sample.cfg) (fun _ df _ => Ok df)
        (fun _ => Err (Raised "KeyError" "end")) Sample.engine Sample.no_parser.

(** Three events of which the second has no value for the trigger
    predicate and the third is no admission. *)
Definition events_null_trigger : DataFrame :=
  [ ("subject_id", Sample.ints [1; 2; 3]);
    ("timestamp", Sample.times [0; 0; 0]);
    ("is_admission", mkSeries Int64 [VInt 1; VNull; VInt 0]);
    ("is_death", Sample.ints [0; 0; 1]) ]%Z.

(** Two events, neither of them an admission. *)
Definition events_none_admitted : DataFrame :=
  [ ("subject_id", Sample.ints [1; 2]);
    ("timestamp", Sample.times [0; Sample.hour]);
    ("is_admission", Sample.ints [0; 0]);
    ("is_icu", Sample.ints [1; 1]) ]%Z.

(** A stand-in for the datetime parser that knows two texts. *)
Definition parser (format s : string) : option Z :=
  if String.eqb format "%m/%d/%Y %H:%M"
  then if String.eqb s "01/01/1970 00:00" then Some 0%Z
       else if String.eqb s "01/01/1970 05:00" then Some (5 * Sample.hour)%Z
       else None
  else None.

Definition env_parser : Env :=
  mkEnv Sample.no_dataset (fun _ => Ok Sample.cfg) (fun _ df _ => Ok df)
        (fun _ => Ok Sample.tree) Sample.engine parser.

(** [Sample.events] with the timestamps as text. *)
Definition events_text : DataFrame :=
  [ ("subject_id", Sample.ints [1; 1; 2]);
    ("timestamp", mkSeries Utf8 [VStr "01/01/1970 00:00"; VStr "01/01/1970 05:00";
                                 VStr "01/01/1970 00:00"]);
    ("is_admission", Sample.ints [1; 0; 1]);
    ("is_death", Sample.ints [0; 1; 0]) ]%Z.

(** A tree with siblings: the root has the children gap and prior, and gap
    has the child target. *)
Definition tree_siblings : Node :=
  mkNode "trigger" [mkNode "gap" [mkNode "target" []]; mkNode "prior" []].

(** What the engine returns for it; the columns are in no particular
    order and one of them is not asked for. *)
Definition engine_result_siblings : DataFrame :=
  [ ("prior/window_summary", Sample.summaries [Sample.summary 0 0; Sample.summary 0 0]);
    ("timestamp", Sample.times [0; 0]);
    ("subject_id", Sample.ints [1; 2]);
    ("gap/timestamp", Sample.times [2 * Sample.hour; 2 * Sample.hour]);
    ("scratch", Sample.ints [7; 7]);
    ("prior/timestamp", Sample.times [- Sample.hour; - Sample.hour]);
    ("target/window_summary", Sample.summaries [Sample.summary 0 1; Sample.summary 0 0]);
    ("gap/window_summary", Sample.summaries [Sample.summary 1 0; Sample.summary 1 0]);
    ("target/timestamp", Sample.times [10 * Sample.hour; 10 * Sample.hour]) ]%Z.

Definition env_siblings : Env :=
  mkEnv Sample.no_dataset (fun _ => Ok Sample.cfg) (fun _ df _ => Ok df)
        (fun _ => Ok tree_siblings) (fun _ _ _ _ _ => Ok engine_result_siblings)
        Sample.no_parser.

Definition expected_siblings : DataFrame :=
  [ ("subject_id", Sample.ints [1; 2]);
    ("trigger/timestamp", Sample.times [0; 0]);
    ("gap/timestamp", Sample.times [2 * Sample.hour; 2 * Sample.hour]);
    ("target/timestamp", Sample.times [10 * Sample.hour; 10 * Sample.hour]);
    ("prior/timestamp", Sample.times [- Sample.hour; - Sample.hour]);
    ("gap/window_summary", Sample.summaries [Sample.summary 1 0; Sample.summary 1 0]);
    ("target/window_summary", Sample.summaries [Sample.summary 0 1; Sample.summary 0 0]);
    ("prior/window_summary", Sample.summaries [Sample.summary 0 0; Sample.summary 0 0]);
    ("label", Sample.ints [1; 0]) ]%Z.

(** Two conditions, the same as [Sample.cfg_includes], with a [start] that
    is not read. *)
Definition cfg_includes_and_start : Config :=
  mkConfig [ ("trigger",
              Sample.window (Some "death")
                [mkInclude "admission"; mkInclude "icu"] None) ].

End Edge.

(** * Properties *)

Lemma outcome_bind {A B} (m : M A) (f : A -> M B) :
  outcome (bind m f) = rbind (outcome m) (fun a => outcome (f a)).
Proof.
  unfold outcome, bind. destruct (snd m); reflexivity.
Qed.

Lemma outcome_lift {A} (r : result A) : outcome (lift r) = r.
Proof. reflexivity. Qed.

Lemma outcome_when_print (b : bool) (msg : LogMsg) :
  outcome (when b (print msg)) = Ok tt.
Proof. destruct b; reflexivity. Qed.

Lemma query_task_outcome env cfg_path data verbose :
  outcome (query_task env cfg_path data verbose) =
  (d0 <- load_data env data ;;
   d1 <- parse_timestamp env d0 ;;
   _ <- check_data d1 ;;
   cfg <- load_config env cfg_path ;;
   d2 <- try_generate env cfg d1 verbose ;;
   tree <- build_tree_from_config env cfg ;;
   anchors <- outcome (initial_anchors env verbose cfg d2) ;;
   res <- query_subtree env tree anchors d2 0%Z verbose ;;
   res' <- assemble env tree res ;;
   add_label env cfg res')%res.
Proof.
  unfold query_task.
  repeat (rewrite outcome_bind; rewrite ?outcome_lift, ?outcome_when_print;
          match goal with
          | |- rbind ?r _ = rbind ?r _ => destruct r; simpl; [ | reflexivity ]
          | |- rbind (Ok tt) _ = _ => simpl
          end).
  reflexivity.
Qed.

(** ** Lists, columns and frames *)

Lemma mem_true_iff k l : mem k l = true <-> In k l.
Proof.
  unfold mem. rewrite existsb_exists. split.
  - intros [x [Hin Heq]]. apply String.eqb_eq in Heq. now subst.
  - intros Hin. exists k. split; [assumption | apply String.eqb_refl].
Qed.

Lemma mem_false_iff k l : mem k l = false <-> ~ In k l.
Proof.
  rewrite <- mem_true_iff. destruct (mem k l); split; congruence.
Qed.

Lemma assoc_mem {A} k (l : list (string * A)) :
  mem k (map fst l) = true <-> exists a, assoc k l = Some a.
Proof.
  induction l as [| [k' a] l IH]; simpl.
  - split; [discriminate | intros [a H]; discriminate].
  - destruct (String.eqb k k'); simpl.
    + split; [eauto | reflexivity].
    + exact IH.
Qed.

Lemma get_column_Ok df name s :
  get_column df name = Ok s <-> assoc name df = Some s.
Proof.
  unfold get_column. destruct (assoc name df); split; congruence.
Qed.

Lemma get_column_mem df name s :
  get_column df name = Ok s -> mem name (columns df) = true.
Proof.
  intros H. apply get_column_Ok in H. apply assoc_mem. eauto.
Qed.

Lemma get_column_missing df name :
  mem name (columns df) = false -> get_column df name = Err (ColumnNotFoundError name).
Proof.
  intros H. unfold get_column. destruct (assoc name df) eqn:E; [ | reflexivity ].
  assert (mem name (columns df) = true) by (apply assoc_mem; eauto). congruence.
Qed.

Lemma mapM_length {A B} (f : A -> result B) l l' :
  mapM f l = Ok l' -> List.length l' = List.length l.
Proof.
  revert l'. induction l as [| a l IH]; simpl; intros l' H.
  - injection H as <-. reflexivity.
  - destruct (f a); simpl in H; [ | discriminate ].
    destruct (mapM f l); simpl in H; [ | discriminate ].
    injection H as <-. simpl. f_equal. now apply IH.
Qed.

Lemma columns_replace_column c df :
  mem (fst c) (columns df) = true -> columns (replace_column c df) = columns df.
Proof.
  induction df as [| d df IH]; simpl; intros H; [ discriminate | ].
  destruct (String.eqb (fst c) (fst d)) eqn:E; simpl.
  - apply String.eqb_eq in E. now rewrite E.
  - f_equal. apply IH. exact H.
Qed.

Lemma assoc_replace_column_other c df k :
  k <> fst c -> assoc k (replace_column c df) = assoc k df.
Proof.
  intros Hk. induction df as [| [k' s'] df IH]; simpl; [ reflexivity | ].
  destruct (String.eqb (fst c) k') eqn:E.
  - apply String.eqb_eq in E. destruct c as [kc sc]. simpl in *. subst k'.
    apply String.eqb_neq in Hk. now rewrite Hk.
  - simpl. destruct (String.eqb k k'); [ reflexivity | exact IH ].
Qed.

Lemma assoc_replace_column_same c df :
  mem (fst c) (columns df) = true -> assoc (fst c) (replace_column c df) = Some (snd c).
Proof.
  induction df as [| [k' s'] df IH]; simpl; intros H; [ discriminate | ].
  destruct (String.eqb (fst c) k') eqn:E; simpl.
  - destruct c as [kc sc]. simpl. now rewrite String.eqb_refl.
  - rewrite E. apply IH. exact H.
Qed.

Lemma height_replace_column c df s :
  assoc (fst c) df = Some s ->
  List.length (values (snd c)) = List.length (values s) ->
  height (replace_column c df) = height df.
Proof.
  destruct df as [| [k' s'] df]; simpl; [ reflexivity | ].
  destruct (String.eqb (fst c) k'); simpl.
  - intros H Hl. injection H as ->. destruct c. exact Hl.
  - reflexivity.
Qed.

(** ** Lines 47-52: what the coercion of the timestamp column does *)

(** The coercion spelled out: the frame itself when the column is a
    datetime, else the frame with that one column replaced by its parse. *)
Lemma parse_timestamp_eq env df :
  parse_timestamp env df =
  match assoc "timestamp" df with
  | None => Err (ColumnNotFoundError "timestamp")
  | Some ts =>
      match dtype ts with
      | Datetime => Ok df
      | Utf8 =>
          (vs <- mapM (parse_value (strptime env) timestamp_format) (values ts) ;;
           Ok (replace_column ("timestamp", mkSeries Datetime vs) df))%res
      | _ => Err SchemaError
      end
  end.
Proof.
  unfold parse_timestamp, get_column.
  destruct (assoc "timestamp" df) as [ts |] eqn:E; simpl; [ | reflexivity ].
  assert (Hm : mem "timestamp" (columns df) = true) by (apply assoc_mem; eauto).
  unfold with_columns. simpl. unfold get_column. rewrite E. simpl.
  destruct (dtype ts); simpl; try reflexivity.
  destruct (mapM _ (values ts)); simpl; [ | reflexivity ].
  unfold put_column. simpl. now rewrite Hm.
Qed.

Lemma parse_timestamp_columns env df d1 :
  parse_timestamp env df = Ok d1 -> columns d1 = columns df.
Proof.
  rewrite parse_timestamp_eq.
  destruct (assoc "timestamp" df) as [ts |] eqn:E; [ | discriminate ].
  destruct (dtype ts); try discriminate.
  - destruct (mapM _ (values ts)); simpl; [ | discriminate ].
    intros H. injection H as <-. apply columns_replace_column.
    apply assoc_mem. eauto.
  - intros H. now injection H as <-.
Qed.

Lemma parse_timestamp_height env df d1 :
  parse_timestamp env df = Ok d1 -> height d1 = height df.
Proof.
  rewrite parse_timestamp_eq.
  destruct (assoc "timestamp" df) as [ts |] eqn:E; [ | discriminate ].
  destruct (dtype ts); try discriminate.
  - destruct (mapM _ (values ts)) as [vs |] eqn:Em; simpl; [ | discriminate ].
    intros H. injection H as <-.
    apply height_replace_column with (s := ts); [ exact E | ].
    simpl. now apply mapM_length in Em.
  - intros H. now injection H as <-.
Qed.

(** ** The input checks (lines 47-59) *)

Lemma check_data_empty df :
  height df = 0 -> check_data df = Err (ValueError msg_empty).
Proof. intros H. unfold check_data. now rewrite H. Qed.

(** X7: a table without rows never yields a result table. *)
Lemma no_rows_no_result env cfg_path data df verbose t :
  load_data env data = Ok df ->
  height df = 0 ->
  outcome (query_task env cfg_path data verbose) <> Ok t.
Proof.
  intros Hd H. rewrite query_task_outcome, Hd. simpl.
  destruct (parse_timestamp env df) as [d1 |] eqn:E; simpl; [ | discriminate ].
  apply parse_timestamp_height in E. rewrite check_data_empty by congruence.
  discriminate.
Qed.

(** X8: with a datetime timestamp column the emptiness check is reached,
    whatever other columns the table has or lacks. *)
Lemma no_rows_datetime_raises_empty env cfg_path data df verbose ts :
  load_data env data = Ok df ->
  height df = 0 -> assoc "timestamp" df = Some ts -> dtype ts = Datetime ->
  outcome (query_task env cfg_path data verbose) = Err (ValueError msg_empty).
Proof.
  intros Hl H Hts Hd. rewrite query_task_outcome, Hl. simpl.
  rewrite parse_timestamp_eq, Hts, Hd. simpl.
  now rewrite check_data_empty.
Qed.

(** C3, at a table without rows and without a timestamp column: the check
    of line 54, which raises the ValueError "Empty ESD!", is not reached.
    Line 47 reads the timestamp column first, and the exception is the
    table library's ColumnNotFoundError, which is none of the input errors
    that lines 54-59 raise. *)
Theorem no_rows_no_timestamp_raises_ColumnNotFoundError env cfg_path verbose :
  height Sample.no_rows_no_timestamp = 0 /\
  outcome (query_task env cfg_path (Frame Sample.no_rows_no_timestamp) verbose)
    = Err (ColumnNotFoundError "timestamp") /\
  kind_of (ColumnNotFoundError "timestamp") = None /\
  kind_of (ValueError msg_empty) = Some InputError.
Proof.
  repeat split.
Qed.

(** C4 as stated fails at a table without rows that lacks subject_id: the
    exception is the ValueError "Empty ESD!", which names no column. *)
Lemma missing_subject_id_not_identified :
  mem "subject_id" (columns Sample.no_rows_no_subject_id) = false /\
  outcome (query_task Sample.env "task.yaml"
             (Frame Sample.no_rows_no_subject_id) false)
    = Err (ValueError msg_empty) /\
  identifies (ValueError msg_empty) "subject_id" = false.
Proof. repeat split. Qed.

(** C4, amended: a table with at least one row whose timestamp column is
    accepted by lines 47-52 and which lacks the subject_id column makes
    [query_task] raise the ValueError "ESD does not have subject_id
    column!", an input error that names the column. *)
Theorem missing_subject_id_raises_InputError env cfg_path data df verbose d1 :
  load_data env data = Ok df ->
  parse_timestamp env df = Ok d1 ->
  height df <> 0 ->
  mem "subject_id" (columns df) = false ->
  outcome (query_task env cfg_path data verbose)
    = Err (ValueError msg_no_subject_id) /\
  kind_of (ValueError msg_no_subject_id) = Some InputError /\
  identifies (ValueError msg_no_subject_id) "subject_id" = true.
Proof.
  intros Hl Hp Hh Hs. split; [ | split; reflexivity ].
  rewrite query_task_outcome, Hl. simpl. rewrite Hp. simpl.
  unfold check_data.
  rewrite (parse_timestamp_height _ _ _ Hp), (parse_timestamp_columns _ _ _ Hp).
  destruct (Nat.eqb_spec (height df) 0) as [E | _]; [ contradiction | ].
  assert (Ht : mem "timestamp" (columns df) = true).
  { rewrite parse_timestamp_eq in Hp.
    destruct (assoc "timestamp" df) eqn:E; [ | discriminate ].
    apply assoc_mem. eauto. }
  rewrite Ht, Hs. reflexivity.
Qed.

Lemma missing_subject_id_raises_InputError_witness :
  outcome (query_task Sample.env "task.yaml" (Frame Sample.rows_no_subject_id) true)
    = Err (ValueError msg_no_subject_id) /\
  kind_of (ValueError msg_no_subject_id) = Some InputError /\
  identifies (ValueError msg_no_subject_id) "subject_id" = true.
Proof.
  apply (missing_subject_id_raises_InputError Sample.env "task.yaml"
           (Frame Sample.rows_no_subject_id) Sample.rows_no_subject_id true
           Sample.rows_no_subject_id).
  - reflexivity.
  - reflexivity.
  - simpl. lia.
  - reflexivity.
Defined.

(** ** The in-memory table (lines 44-52) *)

(** C10: a table passed in memory is taken as it is, with no filtering of
    null rows and no sorting.  Lines 47-52 then return it unchanged when
    its timestamp column is a datetime column, and when it is a text column
    they parse every value of that column under the fixed format and put
    the parsed column in its place: the names, the order, the height and
    every other column stay as supplied. *)
Theorem frame_consumed_as_supplied env df :
  load_data env (Frame df) = Ok df /\
  parse_timestamp env df =
    match assoc "timestamp" df with
    | None => Err (ColumnNotFoundError "timestamp")
    | Some ts =>
        match dtype ts with
        | Datetime => Ok df
        | Utf8 =>
            (vs <- mapM (parse_value (strptime env) "%m/%d/%Y %H:%M") (values ts) ;;
             Ok (replace_column ("timestamp", mkSeries Datetime vs) df))%res
        | _ => Err SchemaError
        end
    end /\
  (forall ts, assoc "timestamp" df = Some ts -> dtype ts = Datetime ->
     parse_timestamp env df = Ok df) /\
  (forall ts vs,
     assoc "timestamp" df = Some ts -> dtype ts = Utf8 ->
     mapM (parse_value (strptime env) "%m/%d/%Y %H:%M") (values ts) = Ok vs ->
     exists d1,
       parse_timestamp env df = Ok d1 /\
       assoc "timestamp" d1 = Some (mkSeries Datetime vs)) /\
  (forall d1, parse_timestamp env df = Ok d1 ->
     columns d1 = columns df /\
     height d1 = height df /\
     (forall c, c <> "timestamp" -> assoc c d1 = assoc c df) /\
     exists ts, assoc "timestamp" df = Some ts /\
       ((dtype ts = Datetime /\ d1 = df) \/
        (dtype ts = Utf8 /\
         exists vs,
           mapM (parse_value (strptime env) "%m/%d/%Y %H:%M") (values ts) = Ok vs /\
           assoc "timestamp" d1 = Some (mkSeries Datetime vs)))).
Proof.
  split; [ reflexivity | split; [ apply parse_timestamp_eq | split; [ | split ] ] ].
  - intros ts Hts Hd. now rewrite parse_timestamp_eq, Hts, Hd.
  - intros ts vs Hts Hd Hvs.
    exists (replace_column ("timestamp", mkSeries Datetime vs) df). split.
    + rewrite parse_timestamp_eq, Hts, Hd. unfold timestamp_format. now rewrite Hvs.
    + apply (assoc_replace_column_same ("timestamp", mkSeries Datetime vs)).
      apply assoc_mem. eauto.
  - intros d1 Hp.
    split; [ eapply parse_timestamp_columns; eassumption | ].
    split; [ eapply parse_timestamp_height; eassumption | ].
    rewrite parse_timestamp_eq in Hp.
    destruct (assoc "timestamp" df) as [ts |] eqn:Hts; [ | discriminate ].
    assert (Hm : mem "timestamp" (columns df) = true) by (apply assoc_mem; eauto).
    destruct (dtype ts) eqn:Hd; try discriminate.
    + destruct (mapM _ (values ts)) as [vs |] eqn:Em; simpl in Hp; [ | discriminate ].
      injection Hp as <-. split.
      * intros c Hc. now apply assoc_replace_column_other.
      * exists ts. split; [ reflexivity | right ]. split; [ exact Hd | ].
        exists vs. split; [ exact Em | ].
        now apply (assoc_replace_column_same ("timestamp", mkSeries Datetime vs)).
    + injection Hp as <-. split; [ reflexivity | ].
      exists ts. split; [ reflexivity | left; split; [ exact Hd | reflexivity ] ].
Qed.

Lemma frame_consumed_as_supplied_witness :
  load_data Edge.env_parser (Frame Edge.events_text) = Ok Edge.events_text /\
  parse_timestamp Edge.env_parser Edge.events_text = Ok Sample.events /\
  parse_timestamp Sample.env Sample.unsorted = Ok Sample.unsorted.
Proof.
  destruct (frame_consumed_as_supplied Edge.env_parser Edge.events_text)
    as [H1 [H2 _]].
  destruct (frame_consumed_as_supplied Sample.env Sample.unsorted)
    as [_ [_ [H3 _]]].
  split; [ exact H1 | split ].
  - rewrite H2. reflexivity.
  - apply (H3 (mkSeries Datetime [VDatetime Sample.hour; VNull; VDatetime 0]));
      reflexivity.
Defined.

(** ** The dataset path (lines 30-43), on the stored sample *)

Example path_is_filtered_joined_sorted :
  load_data Sample.env_dataset (Path "data") = Ok Sample.dataset_events.
Proof. reflexivity. Qed.

Example frame_is_not_filtered_nor_sorted :
  load_data Sample.env_dataset (Frame (events_df Sample.dataset))
    = Ok (events_df Sample.dataset).
Proof. reflexivity. Qed.

(** ** Exceptions of the other modules (lines 61-77) *)

(** C8 as stated fails for the configuration loader: its exception leaves
    [query_task] as it was raised, with no wrapper and no added context. *)
Lemma load_config_error_not_wrapped :
  load_config Sample.env_bad_config "task.yaml"
    = Err (Raised "FileNotFoundError" "task.yaml") /\
  outcome (query_task Sample.env_bad_config "task.yaml" (Frame Sample.events) true)
    = Err (Raised "FileNotFoundError" "task.yaml").
Proof. split; reflexivity. Qed.

(** C8, amended: once the table has passed the input checks, an
    [Exception] raised by the predicate generator is caught and re-raised as
    a ValueError that names the predicate generation stage and is chained to
    the original; what the generator raises that is no [Exception]
    (KeyboardInterrupt, SystemExit) is not caught by [except Exception] and
    propagates unchanged, and so does every exception of the configuration
    loader. *)
Theorem generator_errors_wrapped_loader_errors_propagate
    env cfg_path data verbose d0 d1 :
  load_data env data = Ok d0 ->
  parse_timestamp env d0 = Ok d1 ->
  check_data d1 = Ok tt ->
  (forall cfg e,
     load_config env cfg_path = Ok cfg ->
     generate_predicate_columns env cfg d1 verbose = Err e ->
     is_exception e = true ->
     outcome (query_task env cfg_path data verbose)
       = Err (ValueErrorFrom msg_predicates e) /\
     kind_of (ValueErrorFrom msg_predicates e) = Some ConfigurationError) /\
  (forall cfg e,
     load_config env cfg_path = Ok cfg ->
     generate_predicate_columns env cfg d1 verbose = Err e ->
     is_exception e = false ->
     outcome (query_task env cfg_path data verbose) = Err e) /\
  (forall e,
     load_config env cfg_path = Err e ->
     outcome (query_task env cfg_path data verbose) = Err e).
Proof.
  intros H0 H1 H2.
  assert (Hpre : outcome (query_task env cfg_path data verbose) =
    (cfg <- load_config env cfg_path ;;
     d2 <- try_generate env cfg d1 verbose ;;
     tree <- build_tree_from_config env cfg ;;
     anchors <- outcome (initial_anchors env verbose cfg d2) ;;
     res <- query_subtree env tree anchors d2 0%Z verbose ;;
     res' <- assemble env tree res ;;
     add_label env cfg res')%res).
  { rewrite query_task_outcome, H0. simpl. rewrite H1. simpl. now rewrite H2. }
  rewrite Hpre. split; [ | split ].
  - intros cfg e Hc Hg He. split; [ | reflexivity ].
    rewrite Hc. simpl. unfold try_generate. now rewrite Hg, He.
  - intros cfg e Hc Hg He.
    rewrite Hc. simpl. unfold try_generate. now rewrite Hg, He.
  - intros e Hc. now rewrite Hc.
Qed.

Lemma generator_errors_wrapped_loader_errors_propagate_witness :
  outcome (query_task Sample.env_bad_predicates "task.yaml" (Frame Sample.events) true)
    = Err (ValueErrorFrom msg_predicates (Raised "KeyError" "is_admission")) /\
  kind_of (ValueErrorFrom msg_predicates (Raised "KeyError" "is_admission"))
    = Some ConfigurationError.
Proof.
  destruct (generator_errors_wrapped_loader_errors_propagate
              Sample.env_bad_predicates "task.yaml" (Frame Sample.events) true
              Sample.events Sample.events) as [Hgen _];
    try reflexivity.
  apply (Hgen Sample.cfg (Raised "KeyError" "is_admission")); reflexivity.
Defined.

(** ** An empty anchor set (lines 96-135) *)

(** [query_task] itself makes no test between the trigger filter and the
    call of the engine: the anchors reach [query_subtree] whatever their
    height, and its exception, if any, is not caught. *)
Lemma engine_error_propagates
    env cfg_path data verbose d0 d1 cfg d2 tree anchors e :
  load_data env data = Ok d0 ->
  parse_timestamp env d0 = Ok d1 ->
  check_data d1 = Ok tt ->
  load_config env cfg_path = Ok cfg ->
  generate_predicate_columns env cfg d1 verbose = Ok d2 ->
  build_tree_from_config env cfg = Ok tree ->
  outcome (initial_anchors env verbose cfg d2) = Ok anchors ->
  query_subtree env tree anchors d2 0%Z verbose = Err e ->
  outcome (query_task env cfg_path data verbose) = Err e.
Proof.
  intros H0 H1 H2 H3 H4 H5 H6 H7.
  rewrite query_task_outcome, H0. simpl. rewrite H1. simpl. rewrite H2. simpl.
  rewrite H3. simpl. unfold try_generate. rewrite H4. simpl. rewrite H5. simpl.
  rewrite H6. simpl. now rewrite H7.
Qed.

(** When the anchor table is built and has no row, and the engine is as the
    design describes it, the run fails with the engine's error, of the
    EmptyResultError kind. *)
Theorem empty_anchors_raise_EmptyResultError
    env engine cfg_path data verbose d0 d1 cfg d2 tree anchors :
  query_subtree env = query_subtree_spec engine ->
  load_data env data = Ok d0 ->
  parse_timestamp env d0 = Ok d1 ->
  check_data d1 = Ok tt ->
  load_config env cfg_path = Ok cfg ->
  generate_predicate_columns env cfg d1 verbose = Ok d2 ->
  build_tree_from_config env cfg = Ok tree ->
  outcome (initial_anchors env verbose cfg d2) = Ok anchors ->
  height anchors = 0 ->
  exists e,
    outcome (query_task env cfg_path data verbose) = Err e /\
    kind_of e = Some EmptyResultError.
Proof.
  intros Hq H0 H1 H2 H3 H4 H5 H6 Hh.
  exists (Raised "EmptyResultError" "the trigger filter dropped every subject").
  split; [ | reflexivity ].
  eapply engine_error_propagates; try eassumption.
  rewrite Hq. unfold query_subtree_spec. now rewrite Hh.
Qed.

Lemma empty_anchors_raise_EmptyResultError_witness :
  exists e,
    outcome (query_task (with_query_subtree Sample.env (query_subtree_spec Sample.engine))
               "task.yaml" (Frame Sample.events_no_trigger) true) = Err e /\
    kind_of e = Some EmptyResultError.
Proof.
  apply (empty_anchors_raise_EmptyResultError
           (with_query_subtree Sample.env (query_subtree_spec Sample.engine))
           Sample.engine "task.yaml" (Frame Sample.events_no_trigger) true
           Sample.events_no_trigger Sample.events_no_trigger Sample.cfg
           Sample.events_no_trigger Sample.tree
           [ ("subject_id", Sample.ints []); ("timestamp", Sample.times []);
             ("is_admission", Sample.ints []); ("is_death", Sample.ints []) ]);
    reflexivity.
Defined.

(** ** Runs that return *)

Ltac peel H :=
  match type of H with
  | rbind ?r _ = Ok _ =>
      let E := fresh "E" in
      destruct r eqn:E; simpl in H; [ | discriminate H ]
  end.

(** A run that returns a table went through every stage. *)
Lemma query_task_Ok env cfg_path data verbose res :
  outcome (query_task env cfg_path data verbose) = Ok res ->
  exists d0 d1 cfg d2 tree anchors r r',
    load_data env data = Ok d0 /\
    parse_timestamp env d0 = Ok d1 /\
    check_data d1 = Ok tt /\
    load_config env cfg_path = Ok cfg /\
    generate_predicate_columns env cfg d1 verbose = Ok d2 /\
    build_tree_from_config env cfg = Ok tree /\
    outcome (initial_anchors env verbose cfg d2) = Ok anchors /\
    query_subtree env tree anchors d2 0%Z verbose = Ok r /\
    assemble env tree r = Ok r' /\
    add_label env cfg r' = Ok res.
Proof.
  rewrite query_task_outcome. intros H.
  do 9 peel H.
  match goal with u : unit |- _ => destruct u end.
  unfold try_generate in *.
  destruct (generate_predicate_columns env _ _ verbose) as [dg | eg] eqn:Eg;
    [ | destruct (is_exception eg); discriminate ].
  match goal with E : Ok _ = Ok _ |- _ => injection E as -> end.
  do 8 eexists. repeat (split; [ first [ reflexivity | eassumption ] | ]). exact H.
Qed.

Lemma string_length_append (a b : string) :
  String.length (a ++ b) = String.length a + String.length b.
Proof. induction a; simpl; [ reflexivity | now rewrite IHa ]. Qed.

Lemma suffixed_neq (a b c : string) :
  String.length c < String.length b -> (a ++ b)%string <> c.
Proof.
  intros Hl E. apply (f_equal String.length) in E.
  rewrite string_length_append in E. lia.
Qed.

Lemma first_duplicate_None l : first_duplicate l = None -> NoDup l.
Proof.
  induction l as [| x l IH]; simpl; intros H; [ constructor | ].
  destruct (mem x l) eqn:E; [ discriminate | ].
  constructor; [ now apply mem_false_iff | now apply IH ].
Qed.

Lemma NoDup_first_duplicate l : NoDup l -> first_duplicate l = None.
Proof.
  induction 1 as [| x l Hx _ IH]; simpl; [ reflexivity | ].
  apply mem_false_iff in Hx. now rewrite Hx.
Qed.

(** Selecting columns by name yields exactly those names, in order. *)
Lemma mapM_eval_col parse df names cs :
  mapM (eval parse df) (map col names) = Ok cs ->
  map fst cs = names /\
  Forall (fun c => assoc (fst c) df = Some (snd c)) cs.
Proof.
  revert cs. induction names as [| n names IH]; simpl; intros cs H.
  - injection H as <-. split; constructor.
  - unfold get_column in H. destruct (assoc n df) as [s |] eqn:E; simpl in H; [ | discriminate ].
    destruct (mapM (eval parse df) (map col names)) as [cs' |] eqn:E'; simpl in H;
      [ | discriminate ].
    injection H as <-. destruct (IH cs' eq_refl) as [Hn Hf].
    split; simpl; [ now rewrite Hn | constructor; [ exact E | exact Hf ] ].
Qed.

Lemma select_cols parse df names sel :
  select parse df (map col names) = Ok sel ->
  columns sel = names /\ NoDup names /\
  Forall (fun c => assoc (fst c) df = Some (snd c)) sel.
Proof.
  unfold select. intros H.
  destruct (mapM (eval parse df) (map col names)) as [cs |] eqn:E; [ | discriminate ].
  apply mapM_eval_col in E. destruct E as [Hn Hf].
  cbn [rbind] in H. unfold check_unique in H. rewrite Hn in H.
  destruct (first_duplicate names) eqn:Ed; simpl in H; [ discriminate | ].
  injection H as <-. repeat split; try assumption.
  now apply first_duplicate_None.
Qed.

Lemma rename_columns df old new df' :
  rename df old new = Ok df' ->
  columns df' = map (fun n => if String.eqb n old then new else n) (columns df).
Proof.
  unfold rename. destruct (mem old (columns df)); [ | discriminate ].
  destruct (first_duplicate _); [ discriminate | ].
  intros H. injection H as <-.
  unfold columns. rewrite !map_map. apply map_ext.
  intros [n s]. simpl. destruct (String.eqb n old); reflexivity.
Qed.

Lemma map_rename_other (f : Node -> string) old new l :
  (forall c, f c <> old) ->
  map (fun n => if String.eqb n old then new else n) (map f l) = map f l.
Proof.
  intros Hf. rewrite map_map. apply map_ext. intros c.
  destruct (String.eqb_spec (f c) old) as [E | _]; [ now apply Hf in E | reflexivity ].
Qed.

(** Lines 140-147: the columns of the assembled table. *)
Lemma assemble_columns env tree r r' :
  assemble env tree r = Ok r' ->
  columns r' =
    "subject_id" :: (node_name tree ++ "/timestamp")%string
    :: map (fun c => (node_name c ++ "/timestamp")%string) (tl (preorder_iter tree))
    ++ map (fun c => (node_name c ++ "/window_summary")%string) (tl (preorder_iter tree)).
Proof.
  unfold assemble. intros H. peel H.
  change (col "subject_id" :: col "timestamp" :: ?a ++ ?b) with
    (map col ("subject_id" :: "timestamp" :: nil) ++ a ++ b) in E.
  rewrite <- !map_map with (f := fun c => (node_name c ++ _)%string) (g := col) in E.
  rewrite <- !map_app in E.
  apply select_cols in E. destruct E as [Hc _].
  apply rename_columns in H. rewrite H, Hc. simpl.
  rewrite map_app, !map_rename_other; [ reflexivity | | ];
    intros c; apply suffixed_neq; simpl; lia.
Qed.

Lemma columns_put_column_new df c :
  mem (fst c) (columns df) = false -> columns (put_column df c) = columns df ++ [fst c].
Proof.
  intros H. unfold put_column. rewrite H. unfold columns. now rewrite map_app.
Qed.

Lemma label_not_assembled env tree r r' :
  assemble env tree r = Ok r' -> mem "label" (columns r') = false.
Proof.
  intros H. apply assemble_columns in H. rewrite H.
  apply mem_false_iff. simpl. intros [E | [E | E]]; [ discriminate | | ].
  - revert E. apply suffixed_neq. simpl. lia.
  - apply in_app_or in E. destruct E as [E | E]; apply in_map_iff in E;
      destruct E as [c [E _]]; revert E; apply suffixed_neq; simpl; lia.
Qed.

Lemma with_columns_single parse df e name res :
  with_columns parse df [alias e name] = Ok res ->
  exists r, eval parse df e = Ok r /\ res = put_column df (name, snd r).
Proof.
  unfold with_columns. simpl.
  destruct (eval parse df e) as [r |]; simpl; [ | discriminate ].
  intros H. injection H as <-. eauto.
Qed.

Lemma eval_struct_field parse df x f r :
  eval parse df (struct_field (col x) f) = Ok r ->
  exists s fs,
    assoc x df = Some s /\ dtype s = Struct fs /\ mem f fs = true /\
    r = (f, mkSeries Int64 (map (field_value f) (values s))).
Proof.
  simpl. unfold get_column.
  destruct (assoc x df) as [s |]; simpl; [ | discriminate ].
  destruct (dtype s) as [| | | fs] eqn:Ed; try discriminate.
  destruct (mem f fs) eqn:Em; [ | discriminate ].
  intros H. injection H as <-. eauto 6.
Qed.

(** What lines 156-162 do once a label window [w] with label [l] is found. *)
Lemma add_label_found env cfg w l r' res :
  label_window (windows cfg) = Some (w, l) ->
  truthy_str w = true ->
  add_label env cfg r' = Ok res ->
  exists s fs,
    assoc (w ++ "/window_summary")%string r' = Some s /\
    dtype s = Struct fs /\
    res = put_column r'
            ("label", mkSeries Int64 (map (field_value ("is_" ++ l)%string) (values s))).
Proof.
  intros Hw Ht H. unfold add_label in H. rewrite Hw, Ht in H.
  apply with_columns_single in H. destruct H as [r [He ->]].
  apply eval_struct_field in He. destruct He as (s & fs & Hs & Hd & _ & ->).
  eauto.
Qed.

(** Lines 156-162 add one column, named [label], or none. *)
Lemma add_label_columns env cfg tree r r' res :
  assemble env tree r = Ok r' ->
  add_label env cfg r' = Ok res ->
  columns res = columns r' ++ label_column cfg.
Proof.
  intros Ha H. unfold label_column.
  destruct (label_window (windows cfg)) as [[w l] |] eqn:Hw.
  - destruct (truthy_str w) eqn:Ht.
    + destruct (add_label_found _ _ _ _ _ _ Hw Ht H) as (s & fs & _ & _ & ->).
      apply (columns_put_column_new r' ("label", _)).
      eapply label_not_assembled; eassumption.
    + unfold add_label in H. rewrite Hw, Ht in H. injection H as <-.
      now rewrite app_nil_r.
  - unfold add_label in H. rewrite Hw in H. injection H as <-.
    now rewrite app_nil_r.
Qed.

(** ** The label column (lines 149-162) *)

Lemma assoc_app {A} k (l1 l2 : list (string * A)) :
  assoc k (l1 ++ l2) =
  match assoc k l1 with Some a => Some a | None => assoc k l2 end.
Proof.
  induction l1 as [| [k' a] l1 IH]; simpl; [ reflexivity | ].
  destruct (String.eqb k k'); [ reflexivity | exact IH ].
Qed.

Lemma assoc_None_mem {A} k (l : list (string * A)) :
  mem k (map fst l) = false -> assoc k l = None.
Proof.
  intros H. destruct (assoc k l) eqn:E; [ | reflexivity ].
  assert (mem k (map fst l) = true) by (apply assoc_mem; eauto). congruence.
Qed.

Lemma assoc_put_column_same df c :
  assoc (fst c) (put_column df c) = Some (snd c).
Proof.
  unfold put_column. destruct (mem (fst c) (columns df)) eqn:E.
  - now apply assoc_replace_column_same.
  - rewrite assoc_app, (assoc_None_mem _ _ E). destruct c. simpl.
    now rewrite String.eqb_refl.
Qed.

Lemma assoc_put_column_other df c k :
  k <> fst c -> assoc k (put_column df c) = assoc k df.
Proof.
  intros Hk. unfold put_column. destruct (mem (fst c) (columns df)).
  - now apply assoc_replace_column_other.
  - rewrite assoc_app. destruct (assoc k df); [ reflexivity | ].
    destruct c. simpl in *. apply String.eqb_neq in Hk. now rewrite Hk.
Qed.

(** The loop of lines 150-154 stops at the first window whose label is
    truthy, whatever the windows after it carry. *)
Lemma label_window_first pre W w post p :
  (forall x, In x pre -> truthy_opt (label (snd x)) = false) ->
  label w = Some p -> truthy_str p = true ->
  label_window (pre ++ (W, w) :: post) = Some (W, p).
Proof.
  intros Hpre Hl Hp. induction pre as [| [n x] pre IH]; simpl.
  - now rewrite Hl, Hp.
  - pose proof (Hpre (n, x) (or_introl eq_refl)) as Hx. simpl in Hx.
    unfold truthy_opt in Hx. destruct (label x) as [l |].
    + rewrite Hx. apply IH. intros y Hy. apply Hpre. now right.
    + apply IH. intros y Hy. apply Hpre. now right.
Qed.

(** C6: when [W] is the window marked as label source for predicate [p]
    (the first window of the configuration with a label, hence the only one
    when the configuration has one label), the [label] column of the table
    [query_task] returns is, row by row, the field [is_p] of the column
    [W/window_summary]. *)
Theorem label_is_summary_field
    env cfg_path data verbose cfg pre W w post p res :
  load_config env cfg_path = Ok cfg ->
  windows cfg = pre ++ (W, w) :: post ->
  (forall x, In x pre -> truthy_opt (label (snd x)) = false) ->
  label w = Some p -> truthy_str p = true -> truthy_str W = true ->
  outcome (query_task env cfg_path data verbose) = Ok res ->
  exists summary lab,
    assoc (W ++ "/window_summary")%string res = Some summary /\
    assoc "label" res = Some lab /\
    values lab = map (field_value ("is_" ++ p)%string) (values summary) /\
    forall i, nth i (values lab) VNull
              = field_value ("is_" ++ p)%string (nth i (values summary) VNull).
Proof.
  intros Hc Hw Hpre Hl Hp HW H. apply query_task_Ok in H.
  destruct H as (d0 & d1 & cfg' & d2 & tree & anchors & r & r' & _ & _ & _ & Hc'
                 & _ & _ & _ & _ & _ & Hlab).
  rewrite Hc in Hc'. injection Hc' as <-.
  assert (Hfirst : label_window (windows cfg) = Some (W, p))
    by (rewrite Hw; now apply label_window_first).
  destruct (add_label_found _ _ _ _ _ _ Hfirst HW Hlab) as (s & fs & Hs & _ & ->).
  exists s, (mkSeries Int64 (map (field_value ("is_" ++ p)%string) (values s))).
  split; [ | split; [ | split ] ].
  - rewrite assoc_put_column_other; [ exact Hs | ].
    simpl. apply suffixed_neq. simpl. lia.
  - apply (assoc_put_column_same r' ("label", _)).
  - reflexivity.
  - intros i. simpl. change VNull with (field_value ("is_" ++ p)%string VNull) at 1.
    apply map_nth.
Qed.

Lemma label_is_summary_field_witness :
  exists summary lab,
    assoc "target/window_summary" Sample.expected = Some summary /\
    assoc "label" Sample.expected = Some lab /\
    values lab = map (field_value "is_death") (values summary) /\
    forall i, nth i (values lab) VNull
              = field_value "is_death" (nth i (values summary) VNull).
Proof.
  apply (label_is_summary_field Sample.env "task.yaml" (Frame Sample.events) true
           Sample.cfg
           [ ("trigger", Sample.window (Some "admission") [] None);
             ("gap", Sample.window None [] None) ]
           "target" (Sample.window None [] (Some "death")) [] "death"
           Sample.expected); try reflexivity.
  intros x [<- | [<- | []]]; reflexivity.
Defined.

(** C7 as stated fails: a configuration with two labelled windows is
    accepted, and the run returns a table whose label is read from the
    first of them. *)
Lemma two_labels_no_error :
  labelled Sample.cfg_two_labels = ["gap"; "target"] /\
  load_config Sample.env_two_labels "task.yaml" = Ok Sample.cfg_two_labels /\
  outcome (query_task Sample.env_two_labels "task.yaml" (Frame Sample.events) true)
    = Ok Sample.expected_two_labels.
Proof. repeat split. Qed.

(** C7, amended: lines 149-162 raise no error on account of several
    labelled windows; the label column is read from the first window of
    [cfg.windows] whose label is truthy, and the windows after it have no
    effect on the column. *)
Theorem first_label_wins env pre W w post p res :
  (forall x, In x pre -> truthy_opt (label (snd x)) = false) ->
  label w = Some p -> truthy_str p = true -> truthy_str W = true ->
  add_label env (mkConfig (pre ++ (W, w) :: post)) res
    = with_columns (strptime env) res
        [alias (struct_field (col (W ++ "/window_summary")%string)
                             ("is_" ++ p)%string) "label"] /\
  add_label env (mkConfig (pre ++ (W, w) :: post)) res
    = add_label env (mkConfig (pre ++ [(W, w)])) res.
Proof.
  intros Hpre Hl Hp HW. unfold add_label. simpl.
  rewrite !(label_window_first pre W w _ p Hpre Hl Hp), HW. split; reflexivity.
Qed.

Lemma first_label_wins_witness :
  add_label Sample.env Sample.cfg_two_labels Sample.engine_result
    = add_label Sample.env
        (mkConfig [ ("trigger", Sample.window (Some "admission") [] None);
                    ("gap", Sample.window None [] (Some "admission")) ])
        Sample.engine_result.
Proof.
  apply (first_label_wins Sample.env
           [ ("trigger", Sample.window (Some "admission") [] None) ]
           "gap" (Sample.window None [] (Some "admission"))
           [ ("target", Sample.window None [] (Some "death")) ]
           "admission" Sample.engine_result); try reflexivity.
  intros x [<- | []]. reflexivity.
Defined.

(** ** The verbose flag *)

Lemma filter_columns df m df' :
  filter df m = Ok df' -> columns df' = columns df.
Proof.
  unfold filter. revert df'. induction df as [| c df IH]; simpl; intros df' H.
  - now injection H as <-.
  - destruct (filter_series m (snd c)); simpl in H; [ | discriminate ].
    destruct (mapM _ df); simpl in H; [ | discriminate ].
    injection H as <-. simpl. f_equal. now apply IH.
Qed.

Lemma outcome_report trig i dropped :
  mem "subject_id" (columns dropped) = true ->
  outcome (report trig i dropped) = Ok tt.
Proof.
  intros H. apply assoc_mem in H. destruct H as [s Hs].
  unfold report. rewrite outcome_bind, outcome_lift.
  unfold get_column. rewrite Hs. simpl.
  destruct (truthy_list (includes trig)); reflexivity.
Qed.

Lemma trigger_loop_columns verbose trig conditions :
  forall i anchor shape a,
    outcome (trigger_loop verbose trig i conditions anchor shape) = Ok a ->
    columns a = columns anchor.
Proof.
  induction conditions as [| c rest IH]; simpl; intros i anchor shape a H.
  - now injection H as <-.
  - rewrite outcome_bind, outcome_lift in H.
    destruct (filter anchor (invert c)) as [dropped |]; simpl in H; [ | discriminate ].
    rewrite outcome_bind, outcome_lift in H.
    destruct (filter anchor c) as [anchor' |] eqn:Ef; simpl in H; [ | discriminate ].
    apply filter_columns in Ef. rewrite <- Ef.
    destruct (Nat.ltb (height anchor') shape).
    + rewrite outcome_bind in H.
      destruct (outcome (when verbose (report trig i dropped))); simpl in H;
        [ | discriminate ].
      eapply IH. eassumption.
    + eapply IH. eassumption.
Qed.

(** With a subject_id column the report of lines 105-113 cannot fail, and
    the loop computes the same table with and without it. *)
Lemma trigger_loop_verbose trig conditions :
  forall i anchor shape,
    mem "subject_id" (columns anchor) = true ->
    outcome (trigger_loop true trig i conditions anchor shape)
      = outcome (trigger_loop false trig i conditions anchor shape).
Proof.
  induction conditions as [| c rest IH]; simpl; intros i anchor shape Hm;
    [ reflexivity | ].
  rewrite !outcome_bind, !outcome_lift.
  destruct (filter anchor (invert c)) as [dropped |] eqn:Ed; simpl; [ | reflexivity ].
  rewrite !outcome_bind, !outcome_lift.
  destruct (filter anchor c) as [anchor' |] eqn:Ef; simpl; [ | reflexivity ].
  apply filter_columns in Ed, Ef.
  destruct (Nat.ltb (height anchor') shape).
  - rewrite !outcome_bind. simpl when.
    rewrite outcome_report by congruence. simpl.
    apply IH. congruence.
  - apply IH. congruence.
Qed.

Lemma zero_predicates_subject_id env anchor cols a :
  zero_predicates env anchor cols = Ok a ->
  mem "subject_id" (columns anchor) = true.
Proof.
  unfold zero_predicates, select. simpl. unfold get_column.
  destruct (assoc "subject_id" anchor) eqn:E; [ | discriminate ].
  intros _. apply assoc_mem. eauto.
Qed.

Lemma initial_anchors_Ok env verbose cfg d a :
  outcome (initial_anchors env verbose cfg d) = Ok a ->
  exists trig conditions anchor,
    trigger cfg = Ok trig /\
    valid_trigger_exprs trig d = Ok conditions /\
    outcome (trigger_loop verbose trig 0 conditions d (height d)) = Ok anchor /\
    zero_predicates env anchor (predicate_cols d) = Ok a.
Proof.
  unfold initial_anchors. rewrite outcome_bind, outcome_lift. intros H.
  destruct (trigger cfg) as [trig |]; simpl in H; [ | discriminate ].
  rewrite outcome_bind, outcome_lift in H.
  destruct (valid_trigger_exprs trig d) as [conditions |] eqn:Ec; simpl in H;
    [ | discriminate ].
  rewrite outcome_bind in H.
  destruct (outcome (trigger_loop verbose trig 0 conditions d (height d)))
    as [anchor |] eqn:El; simpl in H; [ | discriminate ].
  rewrite ?outcome_lift in H. exists trig, conditions, anchor. auto.
Qed.

Lemma initial_anchors_verbose env cfg d a v v' :
  outcome (initial_anchors env v cfg d) = Ok a ->
  outcome (initial_anchors env v' cfg d) = Ok a.
Proof.
  intros H. apply initial_anchors_Ok in H.
  destruct H as (trig & conditions & anchor & Ht & Hc & Hl & Hz).
  assert (Hm : mem "subject_id" (columns d) = true).
  { rewrite <- (trigger_loop_columns _ _ _ _ _ _ _ Hl).
    eapply zero_predicates_subject_id. eassumption. }
  assert (Hl' : outcome (trigger_loop v' trig 0 conditions d (height d)) = Ok anchor).
  { pose proof (trigger_loop_verbose trig conditions 0 d (height d) Hm) as Hv.
    destruct v, v'; congruence. }
  unfold initial_anchors. rewrite outcome_bind, outcome_lift, Ht. simpl.
  rewrite outcome_bind, outcome_lift, Hc. simpl.
  rewrite outcome_bind, Hl'. simpl. exact Hz.
Qed.

Lemma query_task_verbose env cfg_path data v v' t :
  (forall cfg df, generate_predicate_columns env cfg df v
                  = generate_predicate_columns env cfg df v') ->
  (forall tree anchors df offset,
     query_subtree env tree anchors df offset v
     = query_subtree env tree anchors df offset v') ->
  outcome (query_task env cfg_path data v) = Ok t ->
  outcome (query_task env cfg_path data v') = Ok t.
Proof.
  intros Hg Hq H. apply query_task_Ok in H.
  destruct H as (d0 & d1 & cfg & d2 & tree & anchors & r & r' & H0 & H1 & H2 & H3
                 & H4 & H5 & H6 & H7 & H8 & H9).
  rewrite query_task_outcome, H0. simpl. rewrite H1. simpl. rewrite H2. simpl.
  rewrite H3. simpl. unfold try_generate. rewrite <- Hg, H4. simpl.
  rewrite H5. simpl. rewrite (initial_anchors_verbose _ _ _ _ v v' H6). simpl.
  rewrite <- Hq, H7. simpl. rewrite H8. simpl. exact H9.
Qed.

Lemma printed_bind_nil {A B} (m : M A) (f : A -> M B) :
  printed m = [] -> (forall a, printed (f a) = []) -> printed (bind m f) = [].
Proof.
  unfold printed, bind. intros Hm Hf.
  destruct (snd m) as [a | e]; simpl; rewrite Hm; [ apply Hf | reflexivity ].
Qed.

Lemma trigger_loop_quiet trig conditions :
  forall i anchor shape,
    printed (trigger_loop false trig i conditions anchor shape) = [].
Proof.
  induction conditions as [| c rest IH]; simpl; intros i anchor shape;
    [ reflexivity | ].
  apply printed_bind_nil; [ reflexivity | intros dropped ].
  apply printed_bind_nil; [ reflexivity | intros anchor' ].
  destruct (Nat.ltb (height anchor') shape); [ | apply IH ].
  apply printed_bind_nil; [ reflexivity | intros _; apply IH ].
Qed.

Lemma query_task_quiet env cfg_path data :
  printed (query_task env cfg_path data false) = [].
Proof.
  unfold query_task, initial_anchors.
  repeat (apply printed_bind_nil; [ try reflexivity | intros ]);
    try reflexivity.
  apply trigger_loop_quiet.
Qed.

(** C9: provided the predicate generator and the engine, which receive the
    flag, return what they return whatever its value, [query_task] returns
    the same table with [verbose] set and unset; with it unset
    [query_task] prints nothing. *)
Theorem verbose_does_not_change_result env cfg_path data :
  (forall cfg df, generate_predicate_columns env cfg df true
                  = generate_predicate_columns env cfg df false) ->
  (forall tree anchors df offset,
     query_subtree env tree anchors df offset true
     = query_subtree env tree anchors df offset false) ->
  (forall t,
     outcome (query_task env cfg_path data true) = Ok t <->
     outcome (query_task env cfg_path data false) = Ok t) /\
  printed (query_task env cfg_path data false) = [].
Proof.
  intros Hg Hq. split; [ | apply query_task_quiet ].
  intros t. split; apply query_task_verbose; intros; auto.
Qed.

Lemma verbose_does_not_change_result_witness :
  outcome (query_task Sample.env "task.yaml" (Frame Sample.events) true)
    = Ok Sample.expected <->
  outcome (query_task Sample.env "task.yaml" (Frame Sample.events) false)
    = Ok Sample.expected.
Proof.
  apply (verbose_does_not_change_result Sample.env "task.yaml" (Frame Sample.events));
    reflexivity.
Defined.

(** ** The initial anchors (lines 82-124) *)

Lemma filter_series_keep m s :
  List.length m = List.length (values s) ->
  filter_series m s = Ok (mkSeries (dtype s) (keep m (values s))).
Proof.
  intros Hl. unfold filter_series. rewrite Hl, Nat.eqb_refl.
  destruct m as [| b [| b' m]]; try reflexivity.
  destruct s as [dt [| v [| v' vs]]]; simpl in *; try discriminate.
  destruct (is_true b); reflexivity.
Qed.

Lemma filter_keep df m :
  (forall c, In c df -> List.length (values (snd c)) = List.length m) ->
  filter df m
    = Ok (map (fun c => (fst c, mkSeries (dtype (snd c)) (keep m (values (snd c))))) df).
Proof.
  unfold filter. induction df as [| c df IH]; simpl; intros H; [ reflexivity | ].
  rewrite filter_series_keep by (symmetry; apply H; now left). simpl.
  rewrite IH by (intros c' Hc'; apply H; now right). reflexivity.
Qed.

Lemma assoc_map_snd {A B} (f : A -> B) k (l : list (string * A)) :
  assoc k (map (fun c => (fst c, f (snd c))) l) = option_map f (assoc k l).
Proof.
  induction l as [| [k' a] l IH]; simpl; [ reflexivity | ].
  destruct (String.eqb k k'); [ reflexivity | exact IH ].
Qed.

Lemma assoc_In {A} k (l : list (string * A)) a :
  assoc k l = Some a -> In (k, a) l.
Proof.
  induction l as [| [k' a'] l IH]; simpl; [ discriminate | ].
  destruct (String.eqb_spec k k') as [-> | _].
  - intros H. injection H as ->. now left.
  - intros H. right. now apply IH.
Qed.

(** Keeping by a mask is gathering the rows where the mask is true. *)
Lemma keep_gather {A} (d : A) (m : Mask) :
  forall (l : list A) (start : nat),
    List.length l = List.length m ->
    keep m l
      = map (fun i => nth (i - start) l d)
          (List.filter (fun i => is_true (nth (i - start) m None))
             (seq start (List.length m))).
Proof.
  induction m as [| b m IH]; intros [| a l] start Hl;
    try discriminate Hl; [ reflexivity | ].
  injection Hl as Hl.
  cbn [List.length seq List.filter keep]. rewrite Nat.sub_diag.
  change (nth 0 (b :: m) None) with b.
  assert (Hf : List.filter (fun i => is_true (nth (i - start) (b :: m) None))
                 (seq (S start) (List.length m))
               = List.filter (fun i => is_true (nth (i - S start) m None))
                   (seq (S start) (List.length m))).
  { apply filter_ext_in. intros i Hi. apply in_seq in Hi.
    replace (i - start) with (S (i - S start)) by lia. reflexivity. }
  assert (Hm : forall idx,
             (forall i, In i idx -> S start <= i) ->
             map (fun i => nth (i - start) (a :: l) d) idx
             = map (fun i => nth (i - S start) l d) idx).
  { intros idx Hidx. apply map_ext_in. intros i Hi. apply Hidx in Hi.
    replace (i - start) with (S (i - S start)) by lia. reflexivity. }
  rewrite Hf. destruct (is_true b); cbn [map]; rewrite ?Nat.sub_diag, Hm.
  - change (nth 0 (a :: l) d) with a. f_equal. now apply IH.
  - intros i Hi. apply filter_In in Hi. destruct Hi as [Hi _].
    apply in_seq in Hi. lia.
  - now apply IH.
  - intros i Hi. apply filter_In in Hi. destruct Hi as [Hi _].
    apply in_seq in Hi. lia.
Qed.

Lemma integer_series_values s :
  integer_series s = true -> forallb integer_value (values s) = true.
Proof. unfold integer_series. destruct (dtype s); try discriminate. auto. Qed.

Lemma is_true_eq_lit s i :
  integer_series s = true ->
  is_true (nth i (eq_lit s 1) None) = is_one (nth i (values s) VNull).
Proof.
  intros H. apply integer_series_values in H. revert H.
  unfold eq_lit. generalize (values s) as l. intros l. revert i.
  induction l as [| v l IH]; intros [| i] H; simpl in *; try reflexivity.
  - destruct v as [| z | | |]; try discriminate; try reflexivity.
    destruct z as [| [ | | ] | ]; reflexivity.
  - apply IH. apply andb_true_iff in H. tauto.
Qed.

Lemma replace_column_middle c done t todo :
  fst c = fst t -> ~ In (fst c) (map fst done) ->
  replace_column c (done ++ t :: todo) = done ++ c :: todo.
Proof.
  intros Hc Hn. induction done as [| d done IH]; simpl.
  - now rewrite Hc, String.eqb_refl.
  - destruct (String.eqb_spec (fst c) (fst d)) as [E | _].
    + exfalso. apply Hn. left. now symmetry.
    + f_equal. apply IH. intros Hin. apply Hn. now right.
Qed.

(** Overwriting every column of a frame, name by name, leaves the new columns. *)
Lemma fold_put_same_names cs :
  forall done todo,
    NoDup (map fst (done ++ cs)) ->
    map fst cs = map fst todo ->
    fold_left put_column cs (done ++ todo) = done ++ cs.
Proof.
  induction cs as [| c cs IH]; intros done [| t todo] Hnd Hn; try discriminate Hn.
  - reflexivity.
  - simpl in Hn. injection Hn as Hc Hn. simpl.
    assert (Hnotin : ~ In (fst c) (map fst done)).
    { rewrite map_app in Hnd. simpl in Hnd. apply NoDup_remove_2 in Hnd.
      intros Hin. apply Hnd. apply in_or_app. now left. }
    assert (Hput : put_column (done ++ t :: todo) c = (done ++ [c]) ++ todo).
    { unfold put_column.
      assert (Hm : mem (fst c) (columns (done ++ t :: todo)) = true).
      { apply mem_true_iff. unfold columns. rewrite map_app. apply in_or_app.
        right. left. now symmetry. }
      rewrite Hm, replace_column_middle by assumption.
      now rewrite <- app_assoc. }
    rewrite Hput, IH.
    + now rewrite <- app_assoc.
    + now rewrite <- app_assoc.
    + exact Hn.
Qed.

Lemma mapM_eval_cols_exist parse df names :
  (forall n, In n names -> mem n (columns df) = true) ->
  exists sel, mapM (eval parse df) (map col names) = Ok sel /\ map fst sel = names.
Proof.
  induction names as [| n names IH]; simpl; intros H.
  - exists []. split; reflexivity.
  - destruct IH as [sel [Hs Hn]]; [ intros; apply H; now right | ].
    assert (Hm : mem n (columns df) = true) by (apply H; now left).
    apply assoc_mem in Hm. destruct Hm as [s Hs'].
    unfold get_column. rewrite Hs'. simpl. rewrite Hs. simpl.
    exists ((n, s) :: sel). split; [ reflexivity | simpl; now rewrite Hn ].
Qed.

Lemma mapM_eval_lit parse df z names :
  mapM (eval parse df) (map (fun c => alias (lit z) c) names)
    = Ok (map (fun c => (c, mkSeries Int64 (repeat (VInt z) (height df)))) names).
Proof.
  induction names as [| n names IH]; simpl; [ reflexivity | ].
  rewrite IH. reflexivity.
Qed.

Lemma prefix_is_not_key c :
  String.prefix "is_" c = true -> c <> "subject_id" /\ c <> "timestamp".
Proof. intros H. split; intros ->; discriminate H. Qed.

Lemma select_Ok parse df es cs :
  mapM (eval parse df) es = Ok cs ->
  NoDup (map fst cs) ->
  select parse df es = Ok cs.
Proof.
  intros Hm Hnd. unfold select. rewrite Hm. cbn [rbind]. unfold check_unique.
  now rewrite (NoDup_first_duplicate _ Hnd).
Qed.

Lemma with_columns_Ok parse df es cs :
  mapM (eval parse df) es = Ok cs ->
  NoDup (map fst cs) ->
  with_columns parse df es = Ok (fold_left put_column cs df).
Proof.
  intros Hm Hnd. unfold with_columns. rewrite Hm. cbn [rbind]. unfold check_unique.
  now rewrite (NoDup_first_duplicate _ Hnd).
Qed.

(** Lines 118-124 on a table that has the key columns: the key columns as
    they are, and a zero for every predicate column. *)
Lemma zero_predicates_eq env anchor cols s1 s2 :
  assoc "subject_id" anchor = Some s1 ->
  assoc "timestamp" anchor = Some s2 ->
  NoDup cols ->
  (forall c, In c cols -> String.prefix "is_" c = true /\ mem c (columns anchor) = true) ->
  zero_predicates env anchor cols
    = Ok (("subject_id", s1) :: ("timestamp", s2)
          :: map (fun c => (c, mkSeries Int64
                                 (repeat (VInt 0) (List.length (values s1))))) cols).
Proof.
  intros H1 H2 Hnd Hcols.
  assert (Hnames : NoDup ("subject_id" :: "timestamp" :: cols)).
  { constructor; [ | constructor; [ | exact Hnd ] ].
    - intros [E | Hin]; [ discriminate | ].
      apply Hcols in Hin. destruct Hin as [Hp _].
      apply prefix_is_not_key in Hp. now destruct Hp.
    - intros Hin. apply Hcols in Hin. destruct Hin as [Hp _].
      apply prefix_is_not_key in Hp. now destruct Hp. }
  destruct (mapM_eval_cols_exist (strptime env) anchor cols) as [sel [Hsel Hn]];
    [ intros n Hin; now apply Hcols | ].
  set (sel0 := ("subject_id", s1) :: ("timestamp", s2) :: sel).
  set (zeros := map (fun c => (c, mkSeries Int64
                                    (repeat (VInt 0) (List.length (values s1))))) cols).
  assert (Hz : map fst zeros = cols).
  { unfold zeros. rewrite map_map. simpl. apply map_id. }
  assert (Hs : select (strptime env) anchor
                 (col "subject_id" :: col "timestamp" :: map col cols) = Ok sel0).
  { apply select_Ok.
    - cbn [mapM eval]. unfold get_column. rewrite H1, H2. cbn [rbind].
      rewrite Hsel. reflexivity.
    - unfold sel0. cbn [map fst]. now rewrite Hn. }
  assert (Hw : with_columns (strptime env) sel0
                 (col "subject_id" :: col "timestamp"
                  :: map (fun c => alias (lit 0) c) cols)
               = Ok (fold_left put_column
                       (("subject_id", s1) :: ("timestamp", s2) :: zeros) sel0)).
  { apply with_columns_Ok.
    - cbn [mapM eval]. rewrite mapM_eval_lit. reflexivity.
    - cbn [map fst]. now rewrite Hz. }
  unfold zero_predicates. rewrite Hs. cbn [rbind]. rewrite Hw. f_equal.
  apply (fold_put_same_names _ [] sel0).
  - cbn [app map fst]. now rewrite Hz.
  - unfold sel0. cbn [map fst]. now rewrite Hz, Hn.
Qed.

Lemma keep_rows {A} (d : A) (m : Mask) (l : list A) :
  List.length l = List.length m ->
  keep m l
    = map (fun i => nth i l d)
        (List.filter (fun i => is_true (nth i m None)) (seq 0 (List.length m))).
Proof.
  intros Hl. rewrite (keep_gather d m l 0 Hl).
  rewrite (filter_ext (fun i => is_true (nth (i - 0) m None))
                      (fun i => is_true (nth i m None)))
    by (intros i; now rewrite Nat.sub_0_r).
  apply map_ext. intros i. now rewrite Nat.sub_0_r.
Qed.

Lemma length_eq_lit s z : List.length (eq_lit s z) = List.length (values s).
Proof. unfold eq_lit. apply length_map. Qed.

Lemma length_invert m : List.length (invert m) = List.length m.
Proof. unfold invert. apply length_map. Qed.

Lemma well_formed_length df name s :
  well_formed df -> assoc name df = Some s -> List.length (values s) = height df.
Proof.
  intros [_ Hwf] Hs. apply assoc_In in Hs. exact (Hwf _ Hs).
Qed.

(** X1: with one trigger condition, the event of [trigger.start] or a single
    entry of [includes], read from an integer column, the anchors of lines
    82-124 are those of the design: the rows where the predicate column is 1, each once and in
    order, with their subject and timestamp and with zeroed predicates. *)
Lemma single_condition_anchors env verbose cfg trig d cname sid ts pc :
  trigger cfg = Ok trig ->
  (includes trig = [] /\ cname = ("is_" ++ fmt (start trig))%string) \/
  (exists x, includes trig = [x] /\ cname = ("is_" ++ predicate x)%string) ->
  well_formed d ->
  assoc "subject_id" d = Some sid ->
  assoc "timestamp" d = Some ts ->
  assoc cname d = Some pc ->
  integer_series pc = true ->
  outcome (initial_anchors env verbose cfg d) = Ok (anchors_spec trig d).
Proof.
  intros Ht Hcase Hwf Hsid Hts Hpc Hint.
  set (m := eq_lit pc 1).
  assert (Hlen : forall c, In c d -> List.length (values (snd c)) = List.length m).
  { intros c Hc. unfold m. rewrite length_eq_lit.
    rewrite (well_formed_length _ _ _ Hwf Hpc). now apply Hwf. }
  assert (Hconds : valid_trigger_exprs trig d = Ok [m]).
  { unfold valid_trigger_exprs.
    destruct Hcase as [[Hi ->] | [x [Hi ->]]]; rewrite Hi; cbn [truthy_list mapM];
      unfold get_column; now rewrite Hpc. }
  assert (Hq : forall i, qualifies trig d i = is_true (nth i m None)).
  { intros i. unfold m. rewrite is_true_eq_lit by exact Hint. unfold qualifies, cell.
    destruct Hcase as [[Hi ->] | [x [Hi ->]]]; rewrite Hi;
      cbn [truthy_list forallb]; rewrite Hpc;
      [ reflexivity | apply andb_true_r ]. }
  set (F := fun s => mkSeries (dtype s) (keep m (values s))).
  set (anchor := map (fun c => (fst c, F (snd c))) d).
  assert (Hf : filter d m = Ok anchor) by (now apply filter_keep).
  assert (Hcols : columns anchor = columns d) by (now apply filter_columns in Hf).
  assert (Hloop : outcome (trigger_loop verbose trig 0 [m] d (height d)) = Ok anchor).
  { cbn [trigger_loop]. rewrite outcome_bind, outcome_lift.
    destruct (filter d (invert m)) as [dropped |] eqn:Ed.
    2:{ rewrite filter_keep in Ed; [ discriminate | ].
        intros c Hc. rewrite length_invert. now apply Hlen. }
    cbn [rbind]. rewrite outcome_bind, outcome_lift, Hf. cbn [rbind].
    destruct (Nat.ltb (height anchor) (height d)); [ | reflexivity ].
    rewrite outcome_bind. destruct verbose; [ | reflexivity ].
    cbn [when]. rewrite outcome_report; [ reflexivity | ].
    apply filter_columns in Ed. rewrite Ed. apply assoc_mem. eauto. }
  assert (Hrows : forall s, List.length (values s) = height d ->
            keep m (values s)
            = map (fun i => nth i (values s) VNull) (qualifying_rows trig d)).
  { intros s Hs. unfold qualifying_rows.
    rewrite (filter_ext _ _ Hq).
    replace (height d) with (List.length m)
      by (unfold m; rewrite length_eq_lit; now apply (well_formed_length d cname)).
    apply keep_rows. rewrite Hs. unfold m. rewrite length_eq_lit.
    symmetry. now apply (well_formed_length d cname). }
  unfold initial_anchors. rewrite outcome_bind, outcome_lift, Ht. cbn [rbind].
  rewrite outcome_bind, outcome_lift, Hconds. cbn [rbind].
  rewrite outcome_bind, Hloop. cbn [rbind]. rewrite outcome_lift.
  rewrite (zero_predicates_eq env anchor (predicate_cols d) (F sid) (F ts)).
  - unfold anchors_spec, dtype_of, cell. rewrite Hsid, Hts. unfold F. cbn [values dtype].
    rewrite !Hrows by (eapply well_formed_length; eassumption).
    now rewrite length_map.
  - unfold anchor. now rewrite assoc_map_snd, Hsid.
  - unfold anchor. now rewrite assoc_map_snd, Hts.
  - unfold predicate_cols. apply NoDup_filter. apply Hwf.
  - intros c Hc. unfold predicate_cols in Hc. apply filter_In in Hc.
    destruct Hc as [Hin Hp]. split; [ exact Hp | ].
    rewrite Hcols. now apply mem_true_iff.
Qed.

Lemma map_nth_seq {A} (d : A) (l : list A) :
  forall start,
    map (fun j => nth (j - start) l d) (seq start (List.length l)) = l.
Proof.
  induction l as [| a l IH]; intros start; [ reflexivity | ].
  cbn [List.length seq map]. rewrite Nat.sub_diag. f_equal.
  etransitivity; [ | apply (IH (S start)) ]. apply map_ext_in.
  intros j Hj. apply in_seq in Hj.
  replace (j - start) with (S (j - S start)) by lia. reflexivity.
Qed.

Lemma gather_all df :
  well_formed df -> gather (seq 0 (height df)) df = df.
Proof.
  intros [_ Hwf]. unfold gather.
  etransitivity; [ | apply map_id ]. apply map_ext_in.
  intros [n [dt vs]] Hc. cbn [fst snd dtype values]. f_equal. f_equal.
  rewrite <- (Hwf _ Hc). cbn [snd values].
  etransitivity; [ | apply (map_nth_seq VNull vs 0) ]. apply map_ext.
  intros j. now rewrite Nat.sub_0_r.
Qed.

(** One series of the filtered table, filtered again by a mask computed on
    the whole table: when the filter returns, it has kept the rows that
    meet both conditions. *)
Lemma filter_series_gathered (f : nat -> bool) (c : Mask) dt vs s' :
  List.length c = List.length vs ->
  filter_series c
    (mkSeries dt (map (fun i => nth i vs VNull)
                    (List.filter f (seq 0 (List.length vs))))) = Ok s' ->
  s' = mkSeries dt
         (map (fun i => nth i vs VNull)
            (List.filter (fun j => f j && is_true (nth j c None))
               (seq 0 (List.length vs)))).
Proof.
  intros Hlen H.
  assert (Hfull :
    List.length (List.filter f (seq 0 (List.length vs))) = List.length vs ->
    mkSeries dt (keep c (map (fun i => nth i vs VNull)
                           (List.filter f (seq 0 (List.length vs)))))
    = mkSeries dt
        (map (fun i => nth i vs VNull)
           (List.filter (fun j => f j && is_true (nth j c None))
              (seq 0 (List.length vs))))).
  { intros Hl. rewrite <- (length_seq (List.length vs) 0) in Hl at 2.
    apply filter_length_forallb in Hl.
    rewrite (forallb_filter_id _ _ Hl).
    assert (Hvs : map (fun i => nth i vs VNull) (seq 0 (List.length vs)) = vs).
    { etransitivity; [ | apply (map_nth_seq VNull vs 0) ]. apply map_ext.
      intros j. now rewrite Nat.sub_0_r. }
    rewrite Hvs, (keep_rows VNull c vs) by (now symmetry). rewrite Hlen.
    f_equal. f_equal. apply filter_ext_in. intros j Hj.
    rewrite forallb_forall in Hl. now rewrite (Hl j Hj). }
  unfold filter_series in H. cbn [dtype values] in H.
  destruct c as [| b [| b' c]].
  - destruct vs; [ | discriminate Hlen ]. cbn in H. injection H as <-. reflexivity.
  - destruct vs as [| v [| v' vs]]; try discriminate Hlen.
    cbn [List.length seq List.filter map] in *.
    destruct (f 0); cbn [andb map nth is_true] in *;
      destruct (is_true b); injection H as <-; reflexivity.
  - rewrite length_map in H.
    destruct (Nat.eqb_spec (List.length (b :: b' :: c))
                (List.length (List.filter f (seq 0 (List.length vs)))))
      as [E | _]; [ | discriminate ].
    injection H as <-. apply Hfull. congruence.
Qed.

Lemma filter_gathered (f : nat -> bool) (c : Mask) d anchor' :
  well_formed d ->
  List.length c = height d ->
  filter (gather (List.filter f (seq 0 (height d))) d) c = Ok anchor' ->
  anchor' = gather (List.filter (fun j => f j && is_true (nth j c None))
                      (seq 0 (height d))) d.
Proof.
  intros [_ Hwf] Hc. unfold filter, gather.
  generalize (height d) Hwf Hc. clear Hwf Hc. intros n Hwf Hc. revert anchor'.
  induction d as [| [name [dt vs]] d IH]; intros anchor' H.
  - cbn in H. injection H as <-. reflexivity.
  - cbn [map mapM fst snd dtype values] in H |- *.
    assert (Hvs : List.length vs = n) by (apply (Hwf (name, mkSeries dt vs)); now left).
    destruct (filter_series c _) as [s' |] eqn:Es; cbn [rbind] in H; [ | discriminate ].
    destruct (mapM _ _) as [rest |] eqn:Er; cbn [rbind] in H; [ | discriminate ].
    injection H as <-. f_equal.
    + f_equal. rewrite <- Hvs in *. now apply filter_series_gathered.
    + apply IH; [ | reflexivity ]. intros c' Hc'. apply Hwf. now right.
Qed.

(** The loop keeps the rows that meet every condition. *)
Lemma trigger_loop_gathered verbose trig d conditions :
  well_formed d ->
  (forall m, In m conditions -> List.length m = height d) ->
  forall i (f : nat -> bool) shape a,
    outcome (trigger_loop verbose trig i conditions
               (gather (List.filter f (seq 0 (height d))) d) shape) = Ok a ->
    a = gather (List.filter
                  (fun j => f j && forallb (fun m => is_true (nth j m None)) conditions)
                  (seq 0 (height d))) d.
Proof.
  intros Hwf. induction conditions as [| c rest IH]; intros Hlen i f shape a H.
  - cbn in H. injection H as <-. f_equal. apply filter_ext.
    intros j. cbn. now rewrite andb_true_r.
  - cbn [trigger_loop] in H. rewrite outcome_bind, outcome_lift in H.
    destruct (filter _ (invert c)) as [dropped |]; cbn [rbind] in H; [ | discriminate ].
    rewrite outcome_bind, outcome_lift in H.
    destruct (filter _ c) as [anchor' |] eqn:Ef; cbn [rbind] in H; [ | discriminate ].
    apply filter_gathered in Ef; [ | assumption | apply Hlen; now left ]. subst anchor'.
    assert (Hrest : outcome (trigger_loop verbose trig (S i) rest
                      (gather (List.filter (fun j => f j && is_true (nth j c None))
                                 (seq 0 (height d))) d)
                      (if Nat.ltb (height (gather (List.filter
                                     (fun j => f j && is_true (nth j c None))
                                     (seq 0 (height d))) d)) shape
                       then height (gather (List.filter
                                     (fun j => f j && is_true (nth j c None))
                                     (seq 0 (height d))) d)
                       else shape)) = Ok a).
    { destruct (Nat.ltb _ shape); [ | exact H ].
      rewrite outcome_bind in H.
      destruct (outcome (when verbose (report trig i dropped))); cbn [rbind] in H;
        [ exact H | discriminate ]. }
    apply IH in Hrest; [ | intros m Hm; apply Hlen; now right ].
    rewrite Hrest. f_equal. apply filter_ext. intros j. cbn [forallb].
    now rewrite andb_assoc.
Qed.

(** The masks of lines 84-91 have the height of the table, and a row meets
    all of them exactly when it qualifies. *)
Lemma prefix_is (x : string) : String.prefix "is_" ("is_" ++ x)%string = true.
Proof. destruct x; reflexivity. Qed.

Lemma valid_trigger_exprs_qualifies trig d conditions :
  well_formed d ->
  integer_predicates d ->
  valid_trigger_exprs trig d = Ok conditions ->
  (forall m, In m conditions -> List.length m = height d) /\
  (forall j, qualifies trig d j
             = forallb (fun m => is_true (nth j m None)) conditions).
Proof.
  intros Hwf Hint. unfold valid_trigger_exprs, qualifies.
  destruct (truthy_list (includes trig)).
  - generalize (includes trig). intros incs. revert conditions.
    induction incs as [| x incs IH]; intros conditions H.
    + cbn in H. injection H as <-. split; [ intros m [] | reflexivity ].
    + cbn [mapM] in H. unfold get_column in H at 1.
      destruct (assoc ("is_" ++ predicate x)%string d) as [s |] eqn:Es;
        cbn [rbind] in H; [ | discriminate ].
      destruct (mapM _ incs) as [ms |]; cbn [rbind] in H; [ | discriminate ].
      injection H as <-. destruct (IH ms eq_refl) as [Hl Hq]. split.
      * intros m [<- | Hm]; [ | now apply Hl ].
        rewrite length_eq_lit. eapply well_formed_length; eassumption.
      * intros j. cbn [forallb].
        rewrite <- Hq, is_true_eq_lit by (exact (Hint _ _ (prefix_is _) Es)).
        unfold cell. now rewrite Es.
  - unfold get_column.
    destruct (assoc ("is_" ++ fmt (start trig))%string d) as [s |] eqn:Es;
      cbn [rbind]; [ | discriminate ].
    intros H. injection H as <-. split.
    + intros m [<- | []]. rewrite length_eq_lit.
      eapply well_formed_length; eassumption.
    + intros j. cbn [forallb].
      rewrite is_true_eq_lit, andb_true_r by (exact (Hint _ _ (prefix_is _) Es)).
      unfold cell. now rewrite Es.
Qed.

(** X2: whatever the trigger, when lines 82-124 build an anchor set on a
    well-formed table whose predicate columns are integer columns, it is
    the one the design asks for. *)
Lemma anchors_are_spec_when_built env verbose cfg trig d a :
  trigger cfg = Ok trig ->
  well_formed d ->
  integer_predicates d ->
  outcome (initial_anchors env verbose cfg d) = Ok a ->
  a = anchors_spec trig d.
Proof.
  intros Ht Hwf Hint H. apply initial_anchors_Ok in H.
  destruct H as (trig' & conditions & anchor & Ht' & Hc & Hl & Hz).
  rewrite Ht in Ht'. injection Ht' as <-.
  destruct (valid_trigger_exprs_qualifies _ _ _ Hwf Hint Hc) as [Hlen Hq].
  rewrite <- (gather_all d Hwf) in Hl at 1.
  rewrite <- (filter_true (seq 0 (height d))) in Hl at 1.
  apply (trigger_loop_gathered verbose trig d conditions Hwf Hlen) in Hl.
  rewrite (filter_ext _ (qualifies trig d)) in Hl
    by (intros j; now rewrite Hq).
  fold (qualifying_rows trig d) in Hl. subst anchor.
  pose proof Hz as Hsid. apply zero_predicates_subject_id in Hsid.
  apply assoc_mem in Hsid. destruct Hsid as [s1 Hs1].
  assert (Hts : exists s2, assoc "timestamp" (gather (qualifying_rows trig d) d) = Some s2).
  { unfold zero_predicates, select in Hz. cbn [mapM eval] in Hz.
    unfold get_column in Hz at 1 2. rewrite Hs1 in Hz. cbn [rbind] in Hz.
    destruct (assoc "timestamp" _) as [s2 |]; [ eauto | discriminate ]. }
  destruct Hts as [s2 Hs2].
  rewrite (zero_predicates_eq env _ (predicate_cols d) s1 s2 Hs1 Hs2) in Hz.
  - injection Hz as <-. unfold gather in Hs1, Hs2.
    rewrite (assoc_map_snd
               (fun s => mkSeries (dtype s)
                           (map (fun i => nth i (values s) VNull)
                              (qualifying_rows trig d)))) in Hs1, Hs2.
    unfold anchors_spec, dtype_of, cell.
    destruct (assoc "subject_id" d) as [sid |]; [ | discriminate ].
    destruct (assoc "timestamp" d) as [ts |]; [ | discriminate ].
    cbn [option_map] in Hs1, Hs2. injection Hs1 as <-. injection Hs2 as <-.
    cbn [values dtype]. now rewrite length_map.
  - unfold predicate_cols. apply NoDup_filter. apply Hwf.
  - intros c Hc'. unfold predicate_cols in Hc'. apply filter_In in Hc'.
    destruct Hc' as [Hin Hp]. split; [ exact Hp | ].
    apply mem_true_iff. unfold gather, columns. rewrite map_map. cbn [fst]. exact Hin.
Qed.

(** C1, at a trigger with the two conditions admission and icu and two
    events of one subject, of which the second meets both: the design asks
    for one anchor, the second event.  The masks of lines 85-87 are computed
    on the whole table; after the first condition has dropped the first
    event the table has one row, the second mask still has two entries, and
    the filter of line 97 raises a ShapeError. *)
Theorem two_conditions_raise_ShapeError env verbose :
  anchors_spec (Sample.window None [mkInclude "admission"; mkInclude "icu"] None)
    Sample.events_includes
    = [ ("subject_id", Sample.ints [1%Z]);
        ("timestamp", Sample.times [Sample.hour]);
        ("is_admission", Sample.ints [0%Z]);
        ("is_icu", Sample.ints [0%Z]) ] /\
  outcome (initial_anchors env verbose Sample.cfg_includes Sample.events_includes)
    = Err ShapeError /\
  outcome (query_task (Sample.env_of (Ok Sample.cfg_includes)) "task.yaml"
             (Frame Sample.events_includes) verbose)
    = Err ShapeError.
Proof.
  destruct verbose; repeat split.
Qed.

(** * Further properties of [query_task] *)

(** ** Input checks *)

Lemma no_rows_no_result_witness :
  outcome (query_task Sample.env "task.yaml" (Frame Sample.no_rows_no_subject_id) true)
    <> Ok Sample.expected.
Proof.
  apply (no_rows_no_result Sample.env "task.yaml" (Frame Sample.no_rows_no_subject_id)
           Sample.no_rows_no_subject_id true Sample.expected); reflexivity.
Defined.

(** X9: a table without a timestamp column makes line 47 raise the table
    library's ColumnNotFoundError, whatever else the table holds. *)
Theorem missing_timestamp_raises_ColumnNotFoundError env cfg_path data df verbose :
  load_data env data = Ok df ->
  mem "timestamp" (columns df) = false ->
  outcome (query_task env cfg_path data verbose)
    = Err (ColumnNotFoundError "timestamp").
Proof.
  intros Hl Hm. rewrite query_task_outcome, Hl. simpl.
  unfold parse_timestamp. now rewrite (get_column_missing _ _ Hm).
Qed.

Lemma missing_timestamp_raises_ColumnNotFoundError_witness :
  outcome (query_task Sample.env "task.yaml" (Frame Sample.no_rows_no_timestamp) false)
    = Err (ColumnNotFoundError "timestamp").
Proof.
  apply (missing_timestamp_raises_ColumnNotFoundError Sample.env "task.yaml"
           (Frame Sample.no_rows_no_timestamp) Sample.no_rows_no_timestamp false);
    reflexivity.
Defined.

(** X10: the check of line 56 never fires: a table that lines 47-52 let
    through has a timestamp column, so the checks of lines 54-59 raise
    either "Empty ESD!" or the subject_id error, or pass. *)
Theorem timestamp_check_never_fires env df d1 :
  parse_timestamp env df = Ok d1 ->
  mem "timestamp" (columns d1) = true /\
  check_data d1 <> Err (ValueError msg_no_timestamp).
Proof.
  intros Hp.
  assert (Hm : mem "timestamp" (columns d1) = true).
  { rewrite (parse_timestamp_columns _ _ _ Hp). rewrite parse_timestamp_eq in Hp.
    destruct (assoc "timestamp" df) eqn:E; [ | discriminate ].
    apply assoc_mem. eauto. }
  split; [ exact Hm | ]. unfold check_data. rewrite Hm.
  destruct (Nat.eqb (height d1) 0); [ discriminate | ]. simpl.
  destruct (mem "subject_id" (columns d1)); discriminate.
Qed.

Lemma timestamp_check_never_fires_witness :
  mem "timestamp" (columns Sample.rows_no_subject_id) = true /\
  check_data Sample.rows_no_subject_id <> Err (ValueError msg_no_timestamp).
Proof.
  apply (timestamp_check_never_fires Sample.env Sample.rows_no_subject_id
           Sample.rows_no_subject_id); reflexivity.
Defined.

(** ** Exceptions of the tree builder and of the engine *)

(** X11: the calls of lines 77 and 129 are not under [try]: an exception of
    [build_tree_from_config] or of [query_subtree] leaves [query_task] as
    it was raised. *)
Theorem builder_and_engine_errors_propagate
    env cfg_path data verbose d0 d1 cfg d2 :
  load_data env data = Ok d0 ->
  parse_timestamp env d0 = Ok d1 ->
  check_data d1 = Ok tt ->
  load_config env cfg_path = Ok cfg ->
  generate_predicate_columns env cfg d1 verbose = Ok d2 ->
  (forall e,
     build_tree_from_config env cfg = Err e ->
     outcome (query_task env cfg_path data verbose) = Err e) /\
  (forall tree anchors e,
     build_tree_from_config env cfg = Ok tree ->
     outcome (initial_anchors env verbose cfg d2) = Ok anchors ->
     query_subtree env tree anchors d2 0%Z verbose = Err e ->
     outcome (query_task env cfg_path data verbose) = Err e).
Proof.
  intros H0 H1 H2 H3 H4.
  assert (Hpre : outcome (query_task env cfg_path data verbose) =
    (tree <- build_tree_from_config env cfg ;;
     anchors <- outcome (initial_anchors env verbose cfg d2) ;;
     res <- query_subtree env tree anchors d2 0%Z verbose ;;
     res' <- assemble env tree res ;;
     add_label env cfg res')%res).
  { rewrite query_task_outcome, H0. simpl. rewrite H1. simpl. rewrite H2. simpl.
    rewrite H3. simpl. unfold try_generate. now rewrite H4. }
  rewrite Hpre. split.
  - intros e He. now rewrite He.
  - intros tree anchors e Ht Ha He. rewrite Ht. simpl. rewrite Ha. simpl.
    now rewrite He.
Qed.

Lemma builder_and_engine_errors_propagate_witness :
  outcome (query_task Edge.env_no_tree "task.yaml" (Frame Sample.events) true)
    = Err (Raised "KeyError" "end").
Proof.
  apply (proj1 (builder_and_engine_errors_propagate Edge.env_no_tree "task.yaml"
                  (Frame Sample.events) true Sample.events Sample.events Sample.cfg
                  Sample.events eq_refl eq_refl eq_refl eq_refl eq_refl)).
  reflexivity.
Defined.

(** ** The trigger condition *)




Lemma report_includes trig trig' i dropped :
  includes trig = includes trig' ->
  truthy_list (includes trig) = true ->
  report trig i dropped = report trig' i dropped.
Proof.
  intros Hi Ht. unfold report. rewrite <- Hi, Ht. reflexivity.
Qed.

Lemma bind_ext {A B} (m : M A) (f g : A -> M B) :
  (forall a, f a = g a) -> bind m f = bind m g.
Proof.
  intros H. unfold bind. destruct (snd m) as [a | e]; [ now rewrite H | reflexivity ].
Qed.

Lemma bind_lift_Ok {A B} (a : A) (f : A -> M B) : bind (lift (Ok a)) f = f a.
Proof. unfold bind, lift. simpl. now destruct (f a). Qed.

Lemma trigger_loop_includes verbose trig trig' conditions :
  includes trig = includes trig' ->
  truthy_list (includes trig) = true ->
  forall i anchor shape,
    trigger_loop verbose trig i conditions anchor shape
      = trigger_loop verbose trig' i conditions anchor shape.
Proof.
  intros Hi Ht. induction conditions as [| c rest IH]; intros i anchor shape;
    [ reflexivity | ].
  cbn [trigger_loop]. apply bind_ext. intros dropped.
  apply bind_ext. intros anchor'.
  destruct (Nat.ltb (height anchor') shape); [ | apply IH ].
  rewrite (report_includes trig trig' i dropped Hi Ht).
  apply bind_ext. intros _. apply IH.
Qed.

(** X5: a non-empty [trigger.includes] takes precedence over
    [trigger.start]: two configurations whose triggers have the same
    non-empty includes give the same anchors, the same exception and the
    same printed reports, whatever their start. *)
Theorem includes_take_precedence env verbose cfg cfg' trig trig' d :
  trigger cfg = Ok trig ->
  trigger cfg' = Ok trig' ->
  includes trig = includes trig' ->
  includes trig <> [] ->
  initial_anchors env verbose cfg d = initial_anchors env verbose cfg' d.
Proof.
  intros Ht Ht' Hi Hne.
  assert (Htr : truthy_list (includes trig) = true)
    by (destruct (includes trig); [ contradiction | reflexivity ]).
  assert (Hv : valid_trigger_exprs trig d = valid_trigger_exprs trig' d).
  { unfold valid_trigger_exprs. rewrite <- Hi, Htr. reflexivity. }
  unfold initial_anchors. rewrite Ht, Ht', !bind_lift_Ok, Hv.
  apply bind_ext. intros conditions.
  now rewrite (trigger_loop_includes verbose trig trig' conditions Hi Htr).
Qed.

Lemma includes_take_precedence_witness :
  initial_anchors Sample.env true Sample.cfg_includes Sample.events_includes
    = initial_anchors Sample.env true Edge.cfg_includes_and_start Sample.events_includes.
Proof.
  apply (includes_take_precedence Sample.env true Sample.cfg_includes
           Edge.cfg_includes_and_start
           (Sample.window None [mkInclude "admission"; mkInclude "icu"] None)
           (Sample.window (Some "death") [mkInclude "admission"; mkInclude "icu"] None)
           Sample.events_includes); try reflexivity.
  discriminate.
Defined.

Lemma keep_length_lt {A} (m : Mask) (l : list A) i :
  List.length l = List.length m ->
  i < List.length m -> is_true (nth i m None) = false ->
  List.length (keep m l) < List.length m.
Proof.
  intros Hl Hi Hf.
  destruct l as [| a l]; [ simpl in Hl; lia | ].
  rewrite (keep_rows a m (a :: l) Hl), length_map.
  pose proof (filter_length_le (fun j => is_true (nth j m None))
                (seq 0 (List.length m))) as Hle.
  rewrite length_seq in Hle.
  destruct (Nat.eq_dec
              (List.length (List.filter (fun j => is_true (nth j m None))
                              (seq 0 (List.length m))))
              (List.length m)) as [E | E]; [ | lia ].
  rewrite <- (length_seq (List.length m) 0) in E at 2.
  apply filter_length_forallb in E. rewrite forallb_forall in E.
  assert (Hin : In i (seq 0 (List.length m))) by (apply in_seq; lia).
  apply E in Hin. congruence.
Qed.

Lemma filter_shape_error name s anchor (m : Mask) :
  2 <= List.length m ->
  List.length (values s) <> List.length m ->
  filter ((name, s) :: anchor) m = Err ShapeError.
Proof.
  intros H2 Hne. unfold filter. cbn [mapM snd]. unfold filter_series.
  destruct m as [| b [| b' m]]; try (simpl in H2; lia).
  destruct (Nat.eqb_spec (List.length (b :: b' :: m)) (List.length (values s)))
    as [E | _]; [ congruence | reflexivity ].
Qed.

Lemma masks_exist d incs :
  (forall z, In z incs -> mem ("is_" ++ predicate z)%string (columns d) = true) ->
  exists ms,
    mapM (fun x => (s <- get_column d ("is_" ++ predicate x)%string ;;
                    Ok (eq_lit s 1))%res) incs = Ok ms /\
    List.length ms = List.length incs.
Proof.
  induction incs as [| z incs IH]; intros H.
  - exists []. split; reflexivity.
  - destruct IH as [ms [Hms Hl]]; [ intros y Hy; apply H; now right | ].
    assert (Hz : mem ("is_" ++ predicate z)%string (columns d) = true)
      by (apply H; now left).
    apply assoc_mem in Hz. destruct Hz as [s Hs].
    exists (eq_lit s 1 :: ms). cbn [mapM]. unfold get_column at 1.
    rewrite Hs. cbn [rbind]. rewrite Hms. cbn [rbind List.length].
    split; [ reflexivity | now rewrite Hl ].
Qed.

Lemma outcome_when_report verbose trig i dropped :
  mem "subject_id" (columns dropped) = true ->
  outcome (when verbose (report trig i dropped)) = Ok tt.
Proof.
  intros H. destruct verbose; [ now apply outcome_report | reflexivity ].
Qed.

Lemma trigger_loop_step verbose trig i c rest anchor shape dropped anchor' :
  filter anchor (invert c) = Ok dropped ->
  filter anchor c = Ok anchor' ->
  mem "subject_id" (columns dropped) = true ->
  outcome (trigger_loop verbose trig i (c :: rest) anchor shape)
    = outcome (trigger_loop verbose trig (S i) rest anchor'
                 (if Nat.ltb (height anchor') shape then height anchor' else shape)).
Proof.
  intros Hd Hf Hm. cbn [trigger_loop].
  rewrite outcome_bind, outcome_lift, Hd. cbn [rbind].
  rewrite outcome_bind, outcome_lift, Hf. cbn [rbind].
  destruct (Nat.ltb (height anchor') shape); [ | reflexivity ].
  now rewrite outcome_bind, outcome_when_report.
Qed.

Lemma trigger_loop_filter_error verbose trig i c rest anchor shape e :
  filter anchor (invert c) = Err e ->
  outcome (trigger_loop verbose trig i (c :: rest) anchor shape) = Err e.
Proof.
  intros Hd. cbn [trigger_loop]. now rewrite outcome_bind, outcome_lift, Hd.
Qed.

(** X3: with two or more conditions in [trigger.includes], on a well-formed
    table of at least two rows whose predicate columns are integer columns
    and which has every column the conditions read,
    the loop of lines 96-116 raises a ShapeError as soon as one row fails
    the first condition: the second mask has the height of the whole table,
    the table it is applied to has fewer rows. *)
Theorem second_condition_raises_ShapeError
    env verbose cfg trig d x y rest px i :
  trigger cfg = Ok trig ->
  includes trig = x :: y :: rest ->
  well_formed d ->
  integer_predicates d ->
  (forall z, In z (includes trig) ->
     mem ("is_" ++ predicate z)%string (columns d) = true) ->
  mem "subject_id" (columns d) = true ->
  2 <= height d ->
  assoc ("is_" ++ predicate x)%string d = Some px ->
  i < height d ->
  is_one (nth i (values px) VNull) = false ->
  outcome (initial_anchors env verbose cfg d) = Err ShapeError.
Proof.
  intros Ht Hi Hwf Hint Hcols Hsid H2 Hpx Hlt Hrow.
  destruct (masks_exist d (y :: rest)) as [ms [Hms Hlen]];
    [ intros z Hz; apply Hcols; rewrite Hi; now right | ].
  destruct ms as [| m2 ms]; [ discriminate Hlen | ].
  set (m1 := eq_lit px 1).
  assert (Hconds : valid_trigger_exprs trig d = Ok (m1 :: m2 :: ms)).
  { unfold valid_trigger_exprs. rewrite Hi. cbn [truthy_list].
    change (mapM ?f (x :: y :: rest))
      with (b <- f x ;; bs <- mapM f (y :: rest) ;; Ok (b :: bs))%res.
    unfold get_column at 1. rewrite Hpx. cbn [rbind]. rewrite Hms. reflexivity. }
  destruct (valid_trigger_exprs_qualifies _ _ _ Hwf Hint Hconds) as [Hl _].
  assert (Hl1 : List.length m1 = height d) by (apply Hl; now left).
  assert (Hl2 : List.length m2 = height d) by (apply Hl; right; now left).
  assert (Hall : forall m : Mask, List.length m = height d ->
            forall c, In c d -> List.length (values (snd c)) = List.length m).
  { intros m Hm c Hc. rewrite Hm. now apply Hwf. }
  pose proof (filter_keep d (invert m1)
                (Hall _ (eq_trans (length_invert m1) Hl1))) as Hdropped.
  pose proof (filter_keep d m1 (Hall _ Hl1)) as Hkept.
  set (dropped := map _ d) in Hdropped. set (anchor := map _ d) in Hkept.
  assert (Hshape : filter anchor (invert m2) = Err ShapeError
                   /\ height anchor < height d).
  { unfold anchor. destruct d as [| [n0 s0] d']; [ discriminate Hpx | ].
    assert (Hs0 : List.length (values s0) = height ((n0, s0) :: d'))
      by (apply (proj2 Hwf (n0, s0)); now left).
    assert (Hshort : List.length (keep m1 (values s0)) < height ((n0, s0) :: d')).
    { rewrite <- Hl1. apply (keep_length_lt m1 (values s0) i).
      - congruence.
      - lia.
      - unfold m1. now rewrite is_true_eq_lit by (exact (Hint _ _ (prefix_is _) Hpx)). }
    split; [ | exact Hshort ].
    cbn [map fst snd]. apply filter_shape_error.
    - rewrite length_invert. lia.
    - cbn [values]. rewrite length_invert. lia. }
  destruct Hshape as [Hshape Hlt'].
  unfold initial_anchors. rewrite outcome_bind, outcome_lift, Ht. cbn [rbind].
  rewrite outcome_bind, outcome_lift, Hconds. cbn [rbind].
  rewrite outcome_bind.
  rewrite (trigger_loop_step verbose trig 0 m1 (m2 :: ms) d (height d)
             dropped anchor Hdropped Hkept).
  - now rewrite (trigger_loop_filter_error _ _ _ _ _ _ _ _ Hshape).
  - rewrite (filter_columns _ _ _ Hdropped). exact Hsid.
Qed.

Ltac integer_table :=
  intros name s Hp Ha; cbn [assoc] in Ha;
  repeat match type of Ha with
         | (if String.eqb name ?k then _ else _) = _ =>
             destruct (String.eqb_spec name k) as [-> | _];
             [ first [ discriminate Hp | injection Ha as <-; reflexivity ] | ]
         end;
  discriminate Ha.

Lemma second_condition_raises_ShapeError_witness :
  outcome (initial_anchors Sample.env true Sample.cfg_includes Sample.events_includes)
    = Err ShapeError.
Proof.
  apply (second_condition_raises_ShapeError Sample.env true Sample.cfg_includes
           (Sample.window None [mkInclude "admission"; mkInclude "icu"] None)
           Sample.events_includes (mkInclude "admission") (mkInclude "icu") []
           (Sample.ints [0; 1]%Z) 0);
    try reflexivity; try (simpl; lia).
  - split.
    + repeat constructor; simpl; intuition discriminate.
    + intros c [<- | [<- | [<- | [<- | []]]]]; reflexivity.
  - unfold Sample.events_includes. integer_table.
  - intros z [<- | [<- | []]]; reflexivity.
Defined.

Lemma sample_events_well_formed : well_formed Sample.events.
Proof.
  split.
  - repeat constructor; simpl; intuition discriminate.
  - intros c [<- | [<- | [<- | [<- | []]]]]; reflexivity.
Qed.

Lemma single_condition_anchors_witness :
  outcome (initial_anchors Sample.env true Sample.cfg Sample.events)
    = Ok (anchors_spec (Sample.window (Some "admission") [] None) Sample.events).
Proof.
  apply (single_condition_anchors Sample.env true Sample.cfg
           (Sample.window (Some "admission") [] None) Sample.events
           "is_admission" (Sample.ints [1; 1; 2]%Z)
           (Sample.times [0; 5 * Sample.hour; 0]%Z) (Sample.ints [1; 0; 1]%Z));
    try reflexivity.
  - left. split; reflexivity.
  - exact sample_events_well_formed.
Defined.

Lemma anchors_are_spec_when_built_witness :
  [ ("subject_id", Sample.ints [1; 2]%Z);
    ("timestamp", Sample.times [0; 0]%Z);
    ("is_admission", Sample.ints [0; 0]%Z);
    ("is_death", Sample.ints [0; 0]%Z) ]
  = anchors_spec (Sample.window (Some "admission") [] None) Sample.events.
Proof.
  apply (anchors_are_spec_when_built Sample.env false Sample.cfg
           (Sample.window (Some "admission") [] None) Sample.events);
    try reflexivity.
  - exact sample_events_well_formed.
  - unfold Sample.events. integer_table.
Defined.

(** ** The assembled table *)

Lemma rename_inv df old new df' :
  rename df old new = Ok df' ->
  df' = map (fun c => if String.eqb (fst c) old then (new, snd c) else c) df /\
  NoDup (columns df').
Proof.
  unfold rename. destruct (mem old (columns df)); [ | discriminate ].
  destruct (first_duplicate _) eqn:E; [ discriminate | ].
  intros H. injection H as <-. split; [ reflexivity | ].
  now apply first_duplicate_None.
Qed.

Lemma preorder_iter_head tree :
  map node_name (preorder_iter tree)
    = node_name tree :: map node_name (tl (preorder_iter tree)).
Proof. destruct tree. reflexivity. Qed.

Lemma assemble_NoDup env tree r r' :
  assemble env tree r = Ok r' -> NoDup (columns r').
Proof.
  unfold assemble. intros H.
  destruct (select _ _ _) as [sel |]; cbn [rbind] in H; [ | discriminate ].
  now apply rename_inv in H.
Qed.

(** X12: [query_task] returns only for a tree whose node names are pairwise
    distinct: with a repeated name the selection or the renaming of lines
    142-147 fails on a duplicate column. *)
Theorem returns_only_for_distinct_node_names
    env cfg_path data verbose cfg tree res :
  load_config env cfg_path = Ok cfg ->
  build_tree_from_config env cfg = Ok tree ->
  outcome (query_task env cfg_path data verbose) = Ok res ->
  NoDup (map node_name (preorder_iter tree)).
Proof.
  intros Hc Ht H. apply query_task_Ok in H.
  destruct H as (d0 & d1 & cfg' & d2 & tree' & anchors & r & r' & _ & _ & _ & Hc'
                 & _ & Ht' & _ & _ & Ha & _).
  rewrite Hc in Hc'. injection Hc' as <-. rewrite Ht in Ht'. injection Ht' as <-.
  pose proof (assemble_NoDup _ _ _ _ Ha) as Hnd.
  rewrite (assemble_columns _ _ _ _ Ha) in Hnd.
  apply NoDup_cons_iff in Hnd. destruct Hnd as [_ Hnd].
  change (?a :: ?l ++ ?l') with ((a :: l) ++ l') in Hnd.
  apply NoDup_app_remove_r in Hnd.
  rewrite preorder_iter_head.
  apply (NoDup_map_inv (fun n => (n ++ "/timestamp")%string)).
  cbn [map]. now rewrite map_map.
Qed.

Lemma returns_only_for_distinct_node_names_witness :
  NoDup (map node_name (preorder_iter Sample.tree)).
Proof.
  apply (returns_only_for_distinct_node_names Sample.env "task.yaml"
           (Frame Sample.events) true Sample.cfg Sample.tree Sample.expected);
    reflexivity.
Defined.

Example repeated_node_name_raises :
  outcome (query_task Edge.env_repeated "task.yaml" (Frame Sample.events) false)
    = Err (DuplicateError "gap/timestamp").
Proof. reflexivity. Qed.

Lemma assoc_NoDup_In {A} k (a : A) (l : list (string * A)) :
  NoDup (map fst l) -> In (k, a) l -> assoc k l = Some a.
Proof.
  induction l as [| [k' a'] l IH]; simpl; intros Hnd Hin; [ contradiction | ].
  apply NoDup_cons_iff in Hnd. destruct Hnd as [Hk Hnd].
  destruct Hin as [E | Hin].
  - injection E as -> ->. now rewrite String.eqb_refl.
  - destruct (String.eqb_spec k k') as [-> | _]; [ | now apply IH ].
    exfalso. apply Hk. apply in_map_iff. exists (k', a). split; [ reflexivity | exact Hin ].
Qed.

Lemma select_assoc parse df names sel n :
  select parse df (map col names) = Ok sel ->
  In n names ->
  exists s, In (n, s) sel /\ assoc n sel = Some s /\ assoc n df = Some s.
Proof.
  intros H Hn. apply select_cols in H. destruct H as [Hc [Hnd Hf]].
  rewrite <- Hc in Hn, Hnd. unfold columns in Hn. apply in_map_iff in Hn.
  destruct Hn as [[n' s] [E Hin]]. simpl in E. subst n'.
  exists s. split; [ exact Hin | split ].
  - now apply assoc_NoDup_In.
  - rewrite Forall_forall in Hf. exact (Hf _ Hin).
Qed.

(** Lines 140-147 copy the columns of the engine's table. *)
Lemma assemble_assoc env tree r r' :
  assemble env tree r = Ok r' ->
  assoc (node_name tree ++ "/timestamp")%string r' = assoc "timestamp" r /\
  forall n,
    In n ("subject_id"
          :: map (fun c => (node_name c ++ "/timestamp")%string) (tl (preorder_iter tree))
          ++ map (fun c => (node_name c ++ "/window_summary")%string)
               (tl (preorder_iter tree))) ->
    assoc n r' = assoc n r.
Proof.
  unfold assemble. intros H.
  destruct (select _ _ _) as [sel |] eqn:Es; cbn [rbind] in H; [ | discriminate ].
  change (col "subject_id" :: col "timestamp" :: ?a ++ ?b) with
    (map col ("subject_id" :: "timestamp" :: nil) ++ a ++ b) in Es.
  rewrite <- !map_map with (f := fun c => (node_name c ++ _)%string) (g := col) in Es.
  rewrite <- !map_app in Es.
  apply rename_inv in H. destruct H as [-> Hnd].
  set (g := fun c : string * Series =>
              if String.eqb (fst c) "timestamp"
              then ((node_name tree ++ "/timestamp")%string, snd c) else c) in *.
  split.
  - destruct (select_assoc _ _ _ _ "timestamp" Es) as (s & Hin & _ & Hr);
      [ right; now left | ].
    rewrite Hr. apply assoc_NoDup_In; [ exact Hnd | ].
    apply in_map_iff. exists ("timestamp", s). split; [ reflexivity | exact Hin ].
  - intros n Hn.
    assert (Hne : n <> "timestamp").
    { destruct Hn as [<- | Hn]; [ discriminate | ].
      apply in_app_or in Hn. destruct Hn as [Hn | Hn]; apply in_map_iff in Hn;
        destruct Hn as [c [<- _]]; apply suffixed_neq; simpl; lia. }
    destruct (select_assoc _ _ _ _ n Es) as (s & Hin & _ & Hr).
    { destruct Hn as [<- | Hn]; [ now left | right; right; exact Hn ]. }
    rewrite Hr. apply assoc_NoDup_In; [ exact Hnd | ].
    apply in_map_iff. exists (n, s). split; [ | exact Hin ].
    unfold g. cbn [fst]. apply String.eqb_neq in Hne. now rewrite Hne.
Qed.

Lemma add_label_assoc env cfg r' res n :
  add_label env cfg r' = Ok res -> n <> "label" -> assoc n res = assoc n r'.
Proof.
  intros H Hn. unfold add_label in H.
  destruct (label_window (windows cfg)) as [[w l] |];
    [ | now injection H as <- ].
  destruct (truthy_str w); [ | now injection H as <- ].
  apply with_columns_single in H. destruct H as [c [_ ->]].
  now apply assoc_put_column_other.
Qed.

(** X13: the table [query_task] returns carries the engine's columns as they
    are: subject_id, the root timestamp under its new name, and the
    timestamp and window summary of every other node are the series the
    engine returned for the anchors and the predicate table it was given. *)
Theorem result_carries_engine_columns env cfg_path data verbose cfg tree res :
  load_config env cfg_path = Ok cfg ->
  build_tree_from_config env cfg = Ok tree ->
  outcome (query_task env cfg_path data verbose) = Ok res ->
  exists d2 anchors r,
    outcome (initial_anchors env verbose cfg d2) = Ok anchors /\
    query_subtree env tree anchors d2 0%Z verbose = Ok r /\
    assoc "subject_id" res = assoc "subject_id" r /\
    assoc (node_name tree ++ "/timestamp")%string res = assoc "timestamp" r /\
    forall c, In c (tl (preorder_iter tree)) ->
      assoc (node_name c ++ "/timestamp")%string res
        = assoc (node_name c ++ "/timestamp")%string r /\
      assoc (node_name c ++ "/window_summary")%string res
        = assoc (node_name c ++ "/window_summary")%string r.
Proof.
  intros Hc Ht H. apply query_task_Ok in H.
  destruct H as (d0 & d1 & cfg' & d2 & tree' & anchors & r & r' & _ & _ & _ & Hc'
                 & _ & Ht' & Hanch & Hq & Ha & Hl).
  rewrite Hc in Hc'. injection Hc' as <-. rewrite Ht in Ht'. injection Ht' as <-.
  exists d2, anchors, r. split; [ exact Hanch | split; [ exact Hq | ] ].
  destruct (assemble_assoc _ _ _ _ Ha) as [Hroot Hrest].
  assert (Hlab : forall n s, String.length "label" < String.length s ->
            assoc (n ++ s)%string res = assoc (n ++ s)%string r').
  { intros n s Hs. apply (add_label_assoc _ _ _ _ _ Hl). now apply suffixed_neq. }
  split; [ | split ].
  - rewrite (add_label_assoc _ _ _ _ _ Hl) by discriminate.
    apply Hrest. now left.
  - rewrite Hlab by (simpl; lia). exact Hroot.
  - intros c Hin. split; (rewrite Hlab by (simpl; lia)); apply Hrest; right;
      apply in_or_app; [ left | right ]; apply in_map_iff; eauto.
Qed.

Lemma result_carries_engine_columns_witness :
  exists d2 anchors r,
    outcome (initial_anchors Sample.env true Sample.cfg d2) = Ok anchors /\
    query_subtree Sample.env Sample.tree anchors d2 0%Z true = Ok r /\
    assoc "subject_id" Sample.expected = assoc "subject_id" r /\
    assoc "trigger/timestamp" Sample.expected = assoc "timestamp" r /\
    forall c, In c (tl (preorder_iter Sample.tree)) ->
      assoc (node_name c ++ "/timestamp")%string Sample.expected
        = assoc (node_name c ++ "/timestamp")%string r /\
      assoc (node_name c ++ "/window_summary")%string Sample.expected
        = assoc (node_name c ++ "/window_summary")%string r.
Proof.
  apply (result_carries_engine_columns Sample.env "task.yaml" (Frame Sample.events)
           true Sample.cfg Sample.tree Sample.expected); reflexivity.
Defined.

(** ** The label window *)

Lemma append_cancel_r (a b s : string) :
  (a ++ s)%string = (b ++ s)%string -> a = b.
Proof.
  revert b. induction a as [| c a IH]; intros [| c' b] H.
  - reflexivity.
  - simpl in H. apply (f_equal String.length) in H. simpl in H.
    rewrite string_length_append in H. lia.
  - simpl in H. apply (f_equal String.length) in H. simpl in H.
    rewrite string_length_append in H. lia.
  - simpl in H. injection H as -> H. f_equal. now apply IH.
Qed.

Lemma summary_name_is_no_timestamp_name (a b : string) :
  (a ++ "/window_summary")%string <> (b ++ "/timestamp")%string.
Proof.
  intros E.
  assert (Hl : String.length a + 15 = String.length b + 10).
  { pose proof (f_equal String.length E) as El.
    rewrite !string_length_append in El. simpl in El. exact El. }
  pose proof (append_correct2 a "/window_summary" 14) as Ha.
  pose proof (append_correct2 b "/timestamp" 9) as Hb.
  rewrite E in Ha. replace (14 + String.length a) with (9 + String.length b) in Ha by lia.
  rewrite <- Hb in Ha. discriminate Ha.
Qed.

(** X14: a label on a window that is not a node below the root of the tree
    (the trigger window itself, say) makes the run fail: [query_task]
    returns no table, since the assembled table has no summary column of
    that name. *)
Theorem label_window_must_be_a_node_below_the_root
    env cfg_path data verbose cfg tree W l res :
  load_config env cfg_path = Ok cfg ->
  build_tree_from_config env cfg = Ok tree ->
  label_window (windows cfg) = Some (W, l) ->
  truthy_str W = true ->
  ~ In W (map node_name (tl (preorder_iter tree))) ->
  outcome (query_task env cfg_path data verbose) <> Ok res.
Proof.
  intros Hc Ht Hw HW Hnot H. apply query_task_Ok in H.
  destruct H as (d0 & d1 & cfg' & d2 & tree' & anchors & r & r' & _ & _ & _ & Hc'
                 & _ & Ht' & _ & _ & Ha & Hl).
  rewrite Hc in Hc'. injection Hc' as <-. rewrite Ht in Ht'. injection Ht' as <-.
  destruct (add_label_found _ _ _ _ _ _ Hw HW Hl) as (s & fs & Hs & _ & _).
  assert (Hin : In (W ++ "/window_summary")%string (columns r')).
  { apply mem_true_iff. apply assoc_mem. eauto. }
  rewrite (assemble_columns _ _ _ _ Ha) in Hin.
  destruct Hin as [E | [E | Hin]].
  - symmetry in E. revert E. apply suffixed_neq. simpl. lia.
  - symmetry in E. revert E. apply summary_name_is_no_timestamp_name.
  - apply in_app_or in Hin. destruct Hin as [Hin | Hin]; apply in_map_iff in Hin;
      destruct Hin as [c [E Hc']].
    + symmetry in E. revert E. apply summary_name_is_no_timestamp_name.
    + apply append_cancel_r in E. apply Hnot. apply in_map_iff. eauto.
Qed.

Lemma label_window_must_be_a_node_below_the_root_witness :
  outcome (query_task (Sample.env_of (Ok Edge.cfg_label_on_trigger)) "task.yaml"
             (Frame Sample.events) true) <> Ok Sample.expected.
Proof.
  apply (label_window_must_be_a_node_below_the_root
           (Sample.env_of (Ok Edge.cfg_label_on_trigger)) "task.yaml"
           (Frame Sample.events) true Edge.cfg_label_on_trigger Sample.tree
           "trigger" "death" Sample.expected); try reflexivity.
  simpl. intros [E | [E | []]]; discriminate.
Defined.

Example label_on_trigger_raises :
  outcome (query_task (Sample.env_of (Ok Edge.cfg_label_on_trigger)) "task.yaml"
             (Frame Sample.events) false)
    = Err (ColumnNotFoundError "trigger/window_summary").
Proof. reflexivity. Qed.

(** ** The dataset path *)

Lemma sort_columns df by_ df' : sort df by_ = Ok df' -> columns df' = columns df.
Proof.
  unfold sort. destruct (mapM (get_column df) by_); cbn [rbind]; [ | discriminate ].
  intros H. injection H as <-. unfold columns. rewrite map_map. reflexivity.
Qed.

Lemma sort_keys_present df by_ df' k :
  sort df by_ = Ok df' -> In k by_ -> In k (columns df).
Proof.
  unfold sort. destruct (mapM (get_column df) by_) as [ks |] eqn:E; cbn [rbind];
    [ | discriminate ].
  intros _ Hk. clear df'. revert ks E. induction by_ as [| b by_ IH]; intros ks E;
    [ contradiction | ].
  cbn [mapM] in E. destruct (get_column df b) as [s |] eqn:Eb; cbn [rbind] in E;
    [ | discriminate ].
  destruct (mapM (get_column df) by_) as [ks' |]; cbn [rbind] in E; [ | discriminate ].
  destruct Hk as [<- | Hk].
  - apply mem_true_iff. eapply get_column_mem. eassumption.
  - eapply IH; [ exact Hk | reflexivity ].
Qed.

Lemma drop_columns df name df' :
  drop df name = Ok df' -> ~ In name (columns df') /\
  forall k, k <> name -> In k (columns df') <-> In k (columns df).
Proof.
  unfold drop. destruct (mem name (columns df)); [ | discriminate ].
  intros H. injection H as <-. unfold columns. split.
  - intros Hin. apply in_map_iff in Hin. destruct Hin as [c [E Hc]].
    apply filter_In in Hc. destruct Hc as [_ Hc]. rewrite E, String.eqb_refl in Hc.
    discriminate.
  - intros k Hk. rewrite !in_map_iff. split; intros [c [E Hc]]; exists c.
    + apply filter_In in Hc. now destruct Hc.
    + split; [ exact E | ]. apply filter_In. split; [ exact Hc | ].
      rewrite E. apply String.eqb_neq in Hk. now rewrite Hk.
Qed.

(** X15: a table built from a dataset directory (lines 30-43) has the three
    sort keys subject_id, timestamp and event_type as columns and has no
    event_id column. *)
Theorem dataset_table_columns env p d :
  load_data env (Path p) = Ok d ->
  In "subject_id" (columns d) /\ In "timestamp" (columns d) /\
  In "event_type" (columns d) /\ ~ In "event_id" (columns d).
Proof.
  cbn [load_data]. intros H. do 5 peel H.
  pose proof (sort_columns _ _ _ H) as Hcols.
  destruct (drop_columns _ _ _ E3) as [Hno _].
  rewrite Hcols.
  repeat split; try (eapply sort_keys_present; [ exact H | simpl; tauto ]).
  exact Hno.
Qed.

Lemma dataset_table_columns_witness :
  In "subject_id" (columns Sample.dataset_events) /\
  In "timestamp" (columns Sample.dataset_events) /\
  In "event_type" (columns Sample.dataset_events) /\
  ~ In "event_id" (columns Sample.dataset_events).
Proof.
  apply (dataset_table_columns Sample.env_dataset "data" Sample.dataset_events).
  reflexivity.
Defined.

(** ** What a verbose run prints *)

Lemma printed_bind_Ok {A B} (m : M A) (f : A -> M B) a :
  outcome m = Ok a -> printed (bind m f) = printed m ++ printed (f a).
Proof. unfold outcome, printed, bind. intros ->. reflexivity. Qed.

Lemma printed_bind_lift {A B} (m : M A) (g : A -> result B) :
  printed (bind m (fun a => lift (g a))) = printed m.
Proof.
  unfold printed, bind. destruct (snd m); simpl; [ apply app_nil_r | reflexivity ].
Qed.

Lemma is_true_invert_eq_lit s i :
  integer_series s = true ->
  is_true (nth i (invert (eq_lit s 1)) None) = rejects (nth i (values s) VNull).
Proof.
  intros H. apply integer_series_values in H. revert H.
  unfold invert, eq_lit. generalize (values s) as l. intros l. revert i.
  induction l as [| v l IH]; intros [| i] H; simpl in *; try reflexivity.
  - destruct v as [| z | | |]; try discriminate; try reflexivity.
    destruct z as [| [ | | ] | ]; reflexivity.
  - apply IH. apply andb_true_iff in H. tauto.
Qed.

Lemma keep_mask_rows (m : Mask) (test : nat -> bool) n vals :
  List.length m = n -> List.length vals = n ->
  (forall i, is_true (nth i m None) = test i) ->
  keep m vals = map (fun i => nth i vals VNull) (List.filter test (seq 0 n)).
Proof.
  intros Hm Hv Ht. subst n. rewrite (keep_rows VNull m vals Hv).
  now rewrite (filter_ext _ _ Ht).
Qed.

(** X6: with [trigger.start] as the only condition, read from an integer
    column, a verbose run prints at most one report for the trigger filter.  It is printed when some row
    was not kept, and it counts the rows whose predicate value is neither 1
    nor null and the distinct subjects of those rows: a row with a null
    predicate is not kept and is not counted. *)
Theorem trigger_report env cfg trig d cname sid ts pc :
  trigger cfg = Ok trig ->
  includes trig = [] ->
  cname = ("is_" ++ fmt (start trig))%string ->
  well_formed d ->
  assoc "subject_id" d = Some sid ->
  assoc "timestamp" d = Some ts ->
  assoc cname d = Some pc ->
  integer_series pc = true ->
  printed (initial_anchors env true cfg d) =
    if Nat.ltb (List.length (qualifying_rows trig d)) (height d)
    then [ExcludedByEvent
            (n_unique (mkSeries (dtype sid)
                         (map (cell d "subject_id") (rejected_rows cname d))))
            (List.length (rejected_rows cname d))
            (start trig)]
    else [].
Proof.
  intros Ht Hi -> Hwf Hsid Hts Hpc Hint.
  set (cname := ("is_" ++ fmt (start trig))%string) in *.
  set (m := eq_lit pc 1).
  assert (Hpcl : List.length (values pc) = height d)
    by (now apply (well_formed_length d cname)).
  assert (Hlm : List.length m = height d) by (unfold m; now rewrite length_eq_lit).
  assert (Hlen : forall mk : Mask, List.length mk = height d ->
            forall c, In c d -> List.length (values (snd c)) = List.length mk).
  { intros mk Hmk c Hc. rewrite Hmk. now apply Hwf. }
  assert (Hconds : valid_trigger_exprs trig d = Ok [m]).
  { unfold valid_trigger_exprs. rewrite Hi. cbn [truthy_list].
    unfold get_column. fold cname. now rewrite Hpc. }
  assert (Hq : forall i, is_true (nth i m None) = qualifies trig d i).
  { intros i. unfold m. rewrite is_true_eq_lit by exact Hint. unfold qualifies, cell.
    rewrite Hi. cbn [truthy_list]. fold cname. now rewrite Hpc. }
  assert (Hr : forall i, is_true (nth i (invert m) None) = rejects (cell d cname i)).
  { intros i. unfold m. rewrite is_true_invert_eq_lit by exact Hint.
    unfold cell. now rewrite Hpc. }
  pose proof (filter_keep d (invert m) (Hlen _ (eq_trans (length_invert m) Hlm)))
    as Hdropped.
  pose proof (filter_keep d m (Hlen _ Hlm)) as Hkept.
  set (dropped := map _ d) in Hdropped. set (anchor := map _ d) in Hkept.
  assert (Hkeep : forall s, List.length (values s) = height d ->
            keep m (values s)
            = map (fun i => nth i (values s) VNull) (qualifying_rows trig d)).
  { intros s Hs. now apply keep_mask_rows. }
  assert (Hrej : forall s, List.length (values s) = height d ->
            keep (invert m) (values s)
            = map (fun i => nth i (values s) VNull) (rejected_rows cname d)).
  { intros s Hs. apply keep_mask_rows; try assumption.
    now rewrite length_invert. }
  assert (Hheights : height anchor = List.length (qualifying_rows trig d) /\
                     height dropped = List.length (rejected_rows cname d)).
  { unfold anchor, dropped. destruct d as [| [n0 s0] d']; [ discriminate Hsid | ].
    assert (Hs0 : List.length (values s0) = height ((n0, s0) :: d'))
      by (apply (proj2 Hwf (n0, s0)); now left).
    cbn [map height fst snd values].
    now rewrite (Hkeep _ Hs0), (Hrej _ Hs0), !length_map. }
  destruct Hheights as [Hha Hhd].
  assert (Hids : get_column dropped "subject_id"
                 = Ok (mkSeries (dtype sid)
                         (map (cell d "subject_id") (rejected_rows cname d)))).
  { unfold get_column, dropped.
    rewrite (assoc_map_snd
               (fun s => mkSeries (dtype s) (keep (invert m) (values s)))), Hsid.
    cbn [option_map]. rewrite Hrej by (now apply (well_formed_length d "subject_id")).
    unfold cell. now rewrite Hsid. }
  unfold initial_anchors. rewrite Ht, bind_lift_Ok, Hconds, bind_lift_Ok.
  rewrite printed_bind_lift. cbn [trigger_loop].
  rewrite Hdropped, bind_lift_Ok, Hkept, bind_lift_Ok, Hha.
  destruct (Nat.ltb (List.length (qualifying_rows trig d)) (height d));
    [ | reflexivity ].
  cbn [when]. unfold report. rewrite Hids, bind_lift_Ok, Hi, Hhd.
  reflexivity.
Qed.

Lemma trigger_report_witness :
  printed (initial_anchors Sample.env true Sample.cfg Edge.events_null_trigger)
    = [ExcludedByEvent 1 1 (Some "admission")].
Proof.
  apply (trigger_report Sample.env Sample.cfg
           (Sample.window (Some "admission") [] None) Edge.events_null_trigger
           "is_admission" (Sample.ints [1; 2; 3]%Z) (Sample.times [0; 0; 0]%Z)
           (mkSeries Int64 [VInt 1; VNull; VInt 0])); try reflexivity.
  split.
  - repeat constructor; simpl; intuition discriminate.
  - intros c [<- | [<- | [<- | [<- | []]]]]; reflexivity.
Defined.

(** X16: a verbose run that returns prints, in this order, the four
    messages of lines 61-80, the reports of the trigger filter, and the
    two messages of lines 126-138. *)
Theorem verbose_run_prints env cfg_path data cfg tree res :
  load_config env cfg_path = Ok cfg ->
  build_tree_from_config env cfg = Ok tree ->
  outcome (query_task env cfg_path data true) = Ok res ->
  exists d1 d2,
    generate_predicate_columns env cfg d1 true = Ok d2 /\
    printed (query_task env cfg_path data true)
      = [LoadingConfig; GeneratingPredicates; BuildingTree; PrintedTree tree]
        ++ printed (initial_anchors env true cfg d2) ++ [Querying; Done].
Proof.
  intros Hc Ht H. apply query_task_Ok in H.
  destruct H as (d0 & d1 & cfg' & d2 & tree' & anchors & r & r' & H0 & H1 & H2 & Hc'
                 & Hg & Ht' & Hanch & Hq & Ha & Hl).
  rewrite Hc in Hc'. injection Hc' as <-. rewrite Ht in Ht'. injection Ht' as <-.
  exists d1, d2. split; [ exact Hg | ].
  unfold query_task. rewrite H0, bind_lift_Ok, H1, bind_lift_Ok, H2, bind_lift_Ok.
  cbn [when].
  rewrite (printed_bind_Ok (print LoadingConfig) _ tt eq_refl).
  rewrite Hc, bind_lift_Ok.
  rewrite (printed_bind_Ok (print GeneratingPredicates) _ tt eq_refl).
  unfold try_generate. rewrite Hg, bind_lift_Ok.
  rewrite (printed_bind_Ok (print BuildingTree) _ tt eq_refl).
  rewrite Ht, bind_lift_Ok.
  rewrite (printed_bind_Ok (print (PrintedTree tree)) _ tt eq_refl).
  rewrite (printed_bind_Ok _ _ anchors Hanch).
  rewrite (printed_bind_Ok (print Querying) _ tt eq_refl).
  rewrite Hq, bind_lift_Ok.
  rewrite (printed_bind_Ok (print Done) _ tt eq_refl).
  rewrite Ha, bind_lift_Ok. reflexivity.
Qed.

Lemma verbose_run_prints_witness :
  exists d1 d2,
    generate_predicate_columns Sample.env Sample.cfg d1 true = Ok d2 /\
    printed (query_task Sample.env "task.yaml" (Frame Sample.events) true)
      = [LoadingConfig; GeneratingPredicates; BuildingTree; PrintedTree Sample.tree]
        ++ printed (initial_anchors Sample.env true Sample.cfg d2) ++ [Querying; Done].
Proof.
  apply (verbose_run_prints Sample.env "task.yaml" (Frame Sample.events)
           Sample.cfg Sample.tree Sample.expected); reflexivity.
Defined.

Lemma no_rows_datetime_raises_empty_witness :
  outcome (query_task Sample.env "task.yaml" (Frame Sample.no_rows_no_subject_id) true)
    = Err (ValueError msg_empty).
Proof.
  apply (no_rows_datetime_raises_empty Sample.env "task.yaml"
           (Frame Sample.no_rows_no_subject_id) Sample.no_rows_no_subject_id true
           (Sample.times [])); reflexivity.
Defined.

(** ** The nodes of the tree and the assembled table (lines 140-147) *)

Lemma preorder_iter_InTree c t : In c (preorder_iter t) <-> InTree c t.
Proof.
  split.
  - induction t as [name cs IH] using Node_induction.
    cbn [preorder_iter]. intros [<- | Hin]; [ constructor | ].
    apply in_flat_map in Hin. destruct Hin as [child [Hc Hin]].
    rewrite Forall_forall in IH.
    apply (InTree_child c name cs child Hc). now apply IH.
  - induction 1 as [| name cs child Hc _ IH].
    + destruct c. cbn [preorder_iter]. now left.
    + cbn [preorder_iter]. right. apply in_flat_map. eauto.
Qed.

Lemma tl_preorder_iter_below_root c t :
  In c (tl (preorder_iter t)) <-> below_root c t.
Proof.
  destruct t as [name cs]. cbn [preorder_iter tl]. unfold below_root.
  cbn [node_children]. rewrite in_flat_map.
  split; intros [child [Hc Hin]]; exists child; split; try assumption;
    now apply preorder_iter_InTree.
Qed.

(** Every column lines 142-146 select is a column of the engine's table. *)
Lemma assemble_sources env tree r r' n :
  assemble env tree r = Ok r' ->
  In n ("subject_id" :: "timestamp"
        :: map (fun c => (node_name c ++ "/timestamp")%string) (tl (preorder_iter tree))
        ++ map (fun c => (node_name c ++ "/window_summary")%string)
             (tl (preorder_iter tree))) ->
  exists s, assoc n r = Some s.
Proof.
  unfold assemble. intros H Hn.
  destruct (select _ _ _) as [sel |] eqn:Es; cbn [rbind] in H; [ | discriminate ].
  change (col "subject_id" :: col "timestamp" :: ?a ++ ?b) with
    (map col ("subject_id" :: "timestamp" :: nil) ++ a ++ b) in Es.
  rewrite <- !map_map with (f := fun c => (node_name c ++ _)%string) (g := col) in Es.
  rewrite <- !map_app in Es.
  destruct (select_assoc _ _ _ _ n Es Hn) as (s & _ & _ & Hr). eauto.
Qed.

(** C5: the table [query_task] returns is assembled from the table the
    engine returned for the initial anchors.  Its columns are, in this
    order, subject_id, the root's own timestamp under the name
    <root>/timestamp, the column <node>/timestamp of every node other than
    the root in preorder, the column <node>/window_summary of every such
    node in preorder, and the label column when there is one; no column is
    left under the name timestamp.  Every node of the tree below the root
    has its two columns, and each of these columns is the series of that
    name in the engine's table, as subject_id is, and as <root>/timestamp
    is the engine's timestamp column. *)
Theorem result_columns env cfg_path data verbose cfg tree res :
  load_config env cfg_path = Ok cfg ->
  build_tree_from_config env cfg = Ok tree ->
  outcome (query_task env cfg_path data verbose) = Ok res ->
  exists d2 anchors r,
    outcome (initial_anchors env verbose cfg d2) = Ok anchors /\
    query_subtree env tree anchors d2 0%Z verbose = Ok r /\
    columns res =
      ("subject_id" :: (node_name tree ++ "/timestamp")%string
       :: map (fun c => (node_name c ++ "/timestamp")%string) (tl (preorder_iter tree))
       ++ map (fun c => (node_name c ++ "/window_summary")%string)
            (tl (preorder_iter tree)))
      ++ label_column cfg /\
    ~ In "timestamp" (columns res) /\
    (exists s, assoc "subject_id" r = Some s /\ assoc "subject_id" res = Some s) /\
    (exists s, assoc "timestamp" r = Some s /\
               assoc (node_name tree ++ "/timestamp")%string res = Some s) /\
    forall c, below_root c tree ->
      (exists s, assoc (node_name c ++ "/timestamp")%string r = Some s /\
                 assoc (node_name c ++ "/timestamp")%string res = Some s) /\
      (exists s, assoc (node_name c ++ "/window_summary")%string r = Some s /\
                 assoc (node_name c ++ "/window_summary")%string res = Some s).
Proof.
  intros Hc Ht H. apply query_task_Ok in H.
  destruct H as (d0 & d1 & cfg' & d2 & tree' & anchors & r & r' & _ & _ & _ & Hc'
                 & _ & Ht' & Hanch & Hq & Ha & Hl).
  rewrite Hc in Hc'. injection Hc' as <-. rewrite Ht in Ht'. injection Ht' as <-.
  exists d2, anchors, r. split; [ exact Hanch | split; [ exact Hq | ] ].
  pose proof (add_label_columns _ _ _ _ _ _ Ha Hl) as Hcols.
  rewrite (assemble_columns _ _ _ _ Ha) in Hcols.
  destruct (assemble_assoc _ _ _ _ Ha) as [Hroot Hrest].
  assert (Hlab : forall n s, String.length "label" < String.length s ->
            assoc (n ++ s)%string res = assoc (n ++ s)%string r').
  { intros n s Hs. apply (add_label_assoc _ _ _ _ _ Hl). now apply suffixed_neq. }
  assert (Hsrc : forall n,
            In n ("subject_id" :: "timestamp"
                  :: map (fun c => (node_name c ++ "/timestamp")%string)
                       (tl (preorder_iter tree))
                  ++ map (fun c => (node_name c ++ "/window_summary")%string)
                       (tl (preorder_iter tree))) ->
            exists s, assoc n r = Some s)
    by (intros n; apply (assemble_sources _ _ _ _ n Ha)).
  split; [ exact Hcols | split; [ | split; [ | split ] ] ].
  - rewrite Hcols. intros Hin. apply in_app_or in Hin. destruct Hin as [Hin | Hin].
    + simpl in Hin. destruct Hin as [E | [E | E]]; [ discriminate | | ].
      * revert E. apply suffixed_neq. simpl. lia.
      * apply in_app_or in E. destruct E as [E | E]; apply in_map_iff in E;
          destruct E as [c [E _]]; revert E; apply suffixed_neq; simpl; lia.
    + unfold label_column in Hin.
      destruct (label_window (windows cfg)) as [[w l] |]; [ | contradiction ].
      destruct (truthy_str w); [ | contradiction ].
      destruct Hin as [E | []]. discriminate.
  - destruct (Hsrc "subject_id") as [s Hs]; [ now left | ].
    exists s. split; [ exact Hs | ].
    rewrite (add_label_assoc _ _ _ _ _ Hl) by discriminate.
    rewrite Hrest by (now left). exact Hs.
  - destruct (Hsrc "timestamp") as [s Hs]; [ right; now left | ].
    exists s. split; [ exact Hs | ].
    rewrite Hlab by (simpl; lia). now rewrite Hroot.
  - intros c Hbelow. apply tl_preorder_iter_below_root in Hbelow.
    assert (Hts : In (node_name c ++ "/timestamp")%string
                    (map (fun c => (node_name c ++ "/timestamp")%string)
                       (tl (preorder_iter tree)) ++
                     map (fun c => (node_name c ++ "/window_summary")%string)
                       (tl (preorder_iter tree))))
      by (apply in_or_app; left; apply in_map_iff; eauto).
    assert (Hws : In (node_name c ++ "/window_summary")%string
                    (map (fun c => (node_name c ++ "/timestamp")%string)
                       (tl (preorder_iter tree)) ++
                     map (fun c => (node_name c ++ "/window_summary")%string)
                       (tl (preorder_iter tree))))
      by (apply in_or_app; right; apply in_map_iff; eauto).
    split.
    + destruct (Hsrc (node_name c ++ "/timestamp")%string) as [s Hs];
        [ right; right; exact Hts | ].
      exists s. split; [ exact Hs | ].
      rewrite Hlab by (simpl; lia). rewrite Hrest by (right; exact Hts). exact Hs.
    + destruct (Hsrc (node_name c ++ "/window_summary")%string) as [s Hs];
        [ right; right; exact Hws | ].
      exists s. split; [ exact Hs | ].
      rewrite Hlab by (simpl; lia). rewrite Hrest by (right; exact Hws). exact Hs.
Qed.

Lemma result_columns_witness :
  exists d2 anchors r,
    outcome (initial_anchors Edge.env_siblings true Sample.cfg d2) = Ok anchors /\
    query_subtree Edge.env_siblings Edge.tree_siblings anchors d2 0%Z true = Ok r /\
    columns Edge.expected_siblings =
      [ "subject_id"; "trigger/timestamp";
        "gap/timestamp"; "target/timestamp"; "prior/timestamp";
        "gap/window_summary"; "target/window_summary"; "prior/window_summary";
        "label" ] /\
    ~ In "timestamp" (columns Edge.expected_siblings) /\
    (exists s, assoc "subject_id" r = Some s /\
               assoc "subject_id" Edge.expected_siblings = Some s) /\
    (exists s, assoc "timestamp" r = Some s /\
               assoc "trigger/timestamp" Edge.expected_siblings = Some s) /\
    forall c, below_root c Edge.tree_siblings ->
      (exists s, assoc (node_name c ++ "/timestamp")%string r = Some s /\
                 assoc (node_name c ++ "/timestamp")%string Edge.expected_siblings
                   = Some s) /\
      (exists s, assoc (node_name c ++ "/window_summary")%string r = Some s /\
                 assoc (node_name c ++ "/window_summary")%string Edge.expected_siblings
                   = Some s).
Proof.
  exact (result_columns Edge.env_siblings "task.yaml" (Frame Sample.events) true
           Sample.cfg Edge.tree_siblings Edge.expected_siblings
           eq_refl eq_refl eq_refl).
Defined.

(** ** A trigger filter that leaves no row (lines 96-135) *)

(** C2, at a trigger with the two conditions admission and icu and two
    events that are no admissions: the first condition drops every row,
    the second mask still has two entries, and the filter of line 97
    raises a ShapeError on the table without rows.  The run ends there,
    whatever the engine would do with an empty anchor table; the exception
    is of none of the error kinds. *)
Theorem first_condition_drops_every_row_raises_ShapeError engine verbose :
  filter Edge.events_none_admitted (eq_lit (Sample.ints [0; 0]%Z) 1)
    = Ok [ ("subject_id", Sample.ints []); ("timestamp", Sample.times []);
           ("is_admission", Sample.ints []); ("is_icu", Sample.ints []) ] /\
  outcome (query_task
             (with_query_subtree (Sample.env_of (Ok Sample.cfg_includes)) engine)
             "task.yaml" (Frame Edge.events_none_admitted) verbose)
    = Err ShapeError /\
  kind_of ShapeError = None.
Proof.
  destruct verbose; repeat split.
Qed.
